(** * ext.duck: the error manager ([discord/ext/duck/errors/manager.py])

    A shallow embedding of [ErrorManager] and the properties of its
    aggregator, its delivery scheduler, its formatter and its command-error
    bridge.

    Conventions of the embedding
    - a [datetime] is the number of microseconds since the epoch and a
      [timedelta] a number of microseconds, both in [Z];
    - a [str] is a [string]; [len] is [String.length];
    - a coroutine is a function in the monad [M], which threads the [World]
      (the manager's attributes, the clock, the log and the webhook endpoint)
      and stops at the first exception raised;
    - an object of discord.py is a record of the attributes the module reads. *)

From Stdlib Require Import ZArith Ascii String List Lia.
From stdpp Require Import base option list gmap strings pretty.

Open Scope string_scope.
Open Scope list_scope.
Open Scope Z_scope.

(** ** Python builtins used by the module *)

Module Py.

Definition nl : string := String "010" "".

(** [s[i:]] *)
Fixpoint str_drop (n : nat) (s : string) : string :=
  match n, s with
  | O, _ => s
  | S _, "" => ""
  | S n', String _ s' => str_drop n' s'
  end.

(** [s[:n]] *)
Fixpoint str_take (n : nat) (s : string) : string :=
  match n, s with
  | O, _ => ""
  | S _, "" => ""
  | S n', String c s' => String c (str_take n' s')
  end.

(** [s[i:j]] for [0 <= i <= j]. *)
Definition slice (i j : nat) (s : string) : string :=
  str_take (j - i) (str_drop i s).

(** [range(0, stop, step)] for a positive [step], as CPython computes it:
    [(stop + step - 1) // step] items, the k-th being [k * step]. *)
Definition range_step (stop step : nat) : list nat :=
  (fun k => k * step)%nat <$> seq 0 ((stop + step - 1) / step)%nat.

(** [template.format(arg)] for a template with one [{}] field. *)
Fixpoint format (template arg : string) : string :=
  match template with
  | "" => ""
  | String "{" (String "}" rest) => arg +:+ rest
  | String c rest => String c (format rest arg)
  end.

(** [sep.join(parts)] *)
Fixpoint join (sep : string) (parts : list string) : string :=
  match parts with
  | [] => ""
  | [p] => p
  | p :: ps => p +:+ sep +:+ join sep ps
  end.

(** [s.replace(old, new)]: the occurrences of [old] are replaced from left
    to right and do not overlap. [skip] counts the characters of an
    occurrence still to be dropped. An empty [old] matches before every
    character and at the end. *)
Fixpoint replace_from (old new : string) (skip : nat) (s : string) : string :=
  match s with
  | "" => ""
  | String c s' =>
      match skip with
      | S k => replace_from old new k s'
      | O =>
          if String.prefix old s
          then new +:+ replace_from old new (String.length old - 1) s'
          else String c (replace_from old new 0 s')
      end
  end.

Fixpoint intersperse_str (new s : string) : string :=
  match s with
  | "" => new
  | String c s' => new +:+ String c (intersperse_str new s')
  end.

Definition replace (s old new : string) : string :=
  match old with
  | "" => intersperse_str new s
  | _ => replace_from old new 0 s
  end.

Definition is_lower (c : ascii) : bool :=
  (97 <=? nat_of_ascii c)%nat && (nat_of_ascii c <=? 122)%nat.
Definition is_upper (c : ascii) : bool :=
  (65 <=? nat_of_ascii c)%nat && (nat_of_ascii c <=? 90)%nat.
Definition to_upper (c : ascii) : ascii :=
  if is_lower c then ascii_of_nat (nat_of_ascii c - 32) else c.
Definition to_lower (c : ascii) : ascii :=
  if is_upper c then ascii_of_nat (nat_of_ascii c + 32) else c.

(** [s.title()]: a cased character is upper-cased after an uncased one
    and lower-cased after a cased one. *)
Fixpoint title_from (prev_cased : bool) (s : string) : string :=
  match s with
  | "" => ""
  | String c s' =>
      let cased := is_lower c || is_upper c in
      String (if prev_cased then to_lower c else to_upper c)
             (title_from cased s')
  end.
Definition title (s : string) : string := title_from false s.

(** Truth value of an [Optional[int]]: [None] and [0] are false. *)
Definition truthy_int (o : option Z) : option Z :=
  match o with
  | Some n => if n =? 0 then None else Some n
  | None => None
  end.

(** [str(n)] of an [int]. *)
Definition str_int (n : Z) : string := pretty n.

End Py.

(** ** Exceptions *)

(** The exception classes the module names or inherits from, with the bases
    they have in Python and in discord.py. *)
Inductive ExcType :=
| BaseException_t | Exception_t | ValueError_t | ZeroDivisionError_t
| DiscordException_t | CommandError_t | CommandNotFound_t | CheckFailure_t
| NotOwner_t | UserInputError_t | BadArgument_t | DisabledCommand_t
| CommandInvokeError_t.

Definition exc_base (t : ExcType) : option ExcType :=
  match t with
  | BaseException_t => None
  | Exception_t => Some BaseException_t
  | ValueError_t => Some Exception_t
  | ZeroDivisionError_t => Some Exception_t
  | DiscordException_t => Some Exception_t
  | CommandError_t => Some DiscordException_t
  | CommandNotFound_t => Some CommandError_t
  | CheckFailure_t => Some CommandError_t
  | NotOwner_t => Some CheckFailure_t
  | UserInputError_t => Some CommandError_t
  | BadArgument_t => Some UserInputError_t
  | DisabledCommand_t => Some CommandError_t
  | CommandInvokeError_t => Some CommandError_t
  end.

Definition ExcType_eqb (a b : ExcType) : bool :=
  match a, b with
  | BaseException_t, BaseException_t | Exception_t, Exception_t
  | ValueError_t, ValueError_t | ZeroDivisionError_t, ZeroDivisionError_t
  | DiscordException_t, DiscordException_t | CommandError_t, CommandError_t
  | CommandNotFound_t, CommandNotFound_t | CheckFailure_t, CheckFailure_t
  | NotOwner_t, NotOwner_t | UserInputError_t, UserInputError_t
  | BadArgument_t, BadArgument_t | DisabledCommand_t, DisabledCommand_t
  | CommandInvokeError_t, CommandInvokeError_t => true
  | _, _ => false
  end.

(** [issubclass(t, c)]: walk the bases of [t]; the hierarchy is five deep. *)
Fixpoint issubclass_fuel (fuel : nat) (t c : ExcType) : bool :=
  ExcType_eqb t c ||
  match fuel, exc_base t with
  | S f, Some b => issubclass_fuel f b c
  | _, _ => false
  end.
Definition issubclass (t c : ExcType) : bool := issubclass_fuel 6 t c.

(** An exception object: its class, [str(error)], the text that
    ["".join(traceback.format_exception(type(error), error, error.__traceback__))]
    renders for it, and the [original] attribute a [CommandInvokeError]
    carries. *)
#[local] Set Warnings "-register-all".
Inductive BaseException :=
| mkException (exc_type : ExcType) (exc_str : string)
              (exc_rendered : string) (exc_original : option BaseException).

Definition exc_type (e : BaseException) : ExcType :=
  let 'mkException t _ _ _ := e in t.
Definition exc_str (e : BaseException) : string :=
  let 'mkException _ s _ _ := e in s.
Definition exc_rendered (e : BaseException) : string :=
  let 'mkException _ _ r _ := e in r.
Definition exc_original (e : BaseException) : option BaseException :=
  let 'mkException _ _ _ o := e in o.

(** [isinstance(error, c)] and [isinstance(error, (c1, ..., cn))] *)
Definition isinstance (e : BaseException) (c : ExcType) : bool :=
  issubclass (exc_type e) c.
Definition isinstance_any (e : BaseException) (cs : list ExcType) : bool :=
  existsb (isinstance e) cs.

(** Length of the chain of [original] attributes. *)
Fixpoint wrap_depth (e : BaseException) : nat :=
  match e with
  | mkException _ _ _ (Some o) => S (wrap_depth o)
  | mkException _ _ _ None => O
  end.

(** ** The objects of discord.py the module reads *)

Module discord.

(** A [User], [Member] or [ClientUser]: [id], [str(user)],
    [display_name] and [display_avatar.url]. *)
Record User := {
  user_id : Z;
  user_str : string;
  display_name : string;
  display_avatar_url : string
}.

(** [user.mention] *)
Definition user_mention (u : User) : string :=
  "<@" +:+ Py.str_int (user_id u) +:+ ">".

Record Channel := { channel_id : Z; channel_name : string }.

(** [channel.mention] *)
Definition channel_mention (c : Channel) : string :=
  "<#" +:+ Py.str_int (channel_id c) +:+ ">".

Record Guild := {
  guild_id : Z;
  guild_name : string;
  channels : gmap Z Channel;
  members : gmap Z User
}.

Definition get_channel (g : Guild) (id : Z) : option Channel := channels g !! id.
Definition get_member (g : Guild) (id : Z) : option User := members g !! id.

Record Message := { created_at : Z }.

Record Command := { qualified_name : string; command_has_error_handler : bool }.
Record Cog := { cog_has_error_handler : bool }.

(** A [discord.ui.Item]: [str(item)] and [str(item.view)]. *)
Record Item := { item_str : string; item_view_str : string }.

(** [commands.Bot]: the guild and user caches, [bot.user],
    [type(bot).__name__] and the listeners of [bot.extra_events]. *)
Record Bot := {
  guilds : gmap Z Guild;
  users : gmap Z User;
  user : option User;
  class_name : string;
  extra_events : gmap string (list string)
}.

(** [bot.get_guild(id)]; the module also calls it with [None]. *)
Definition get_guild (b : Bot) (id : option Z) : option Guild :=
  match id with
  | Some i => guilds b !! i
  | None => None
  end.
Definition get_user (b : Bot) (id : Z) : option User := users b !! id.

(** [commands.Context] *)
Record Context := {
  ctx_bot : Bot;
  ctx_message : Message;
  ctx_command : option Command;
  ctx_cog : option Cog;
  ctx_author : User;
  ctx_guild : option Guild;
  ctx_channel : Channel
}.

(** [discord.Interaction] *)
Record Interaction := {
  int_message : option Message;
  int_command : option Command;
  int_user : User;
  int_guild : option Guild;
  int_channel_id : option Z
}.

Record Embed := {
  title : option string;
  timestamp : option Z;
  description : option string;
  fields : list (string * string);
  embed_author : option (string * string)
}.

(** [discord.Embed(title=..., timestamp=..., description=...)] *)
Definition new_Embed (t : option string) (ts : option Z) (d : option string) : Embed :=
  {| title := t; timestamp := ts; description := d; fields := []; embed_author := None |}.

Definition add_field (e : Embed) (name value : string) : Embed :=
  {| title := title e; timestamp := timestamp e; description := description e;
     fields := fields e ++ [(name, value)]; embed_author := embed_author e |}.

Definition set_author (e : Embed) (name icon_url : string) : Embed :=
  {| title := title e; timestamp := timestamp e; description := description e;
     fields := fields e; embed_author := Some (name, icon_url) |}.

Definition set_description (e : Embed) (d : string) : Embed :=
  {| title := title e; timestamp := timestamp e; description := Some d;
     fields := fields e; embed_author := embed_author e |}.

(** [discord.utils.format_dt(dt)]: ["<t:%d>"] of the whole seconds. *)
Definition format_dt (dt : Z) : string :=
  "<t:" +:+ Py.str_int (Z.quot dt 1000000) +:+ ">".

End discord.
Import discord.

(** The context [add_error] accepts: none, a command context or an
    interaction. *)
Inductive OriginCtx :=
| NoCtx
| CommandCtx (ctx : Context)
| InteractionCtx (ctx : Interaction).

(** ** The data of the module *)

(** [TracebackData]. Every reader of the optional keys goes through
    [packet.get], so a key that is absent and a key set to [None] are both
    [None] here. *)
Record TracebackData := {
  time : Z;
  exception : BaseException;
  author : option Z;
  guild : option Z;
  channel : option Z;
  command : option Command;
  item : option Item
}.

Record CommandErrorSettings := {
  hijack : bool;
  ignored_errors : list ExcType;
  check_for_local_error_handlers : bool
}.

(** [CommandErrorSettings(hijack=h)] with the defaults of the other fields. *)
Definition default_settings (h : bool) : CommandErrorSettings :=
  {| hijack := h;
     ignored_errors := [NotOwner_t; CommandNotFound_t];
     check_for_local_error_handlers := true |}.

(** The attributes of an [ErrorManager]. [error_webhook_partial] is
    [self.error_webhook.is_partial()]. [code_blocker] is assigned once, in
    [__init__], and is the constant below. *)
Record ErrorManager := {
  bot : Bot;
  cooldown : Z;
  _most_recent : option Z;
  errors : gmap string (list TracebackData);
  error_webhook_partial : bool;
  oce_settings : CommandErrorSettings
}.

Definition code_blocker : string := "```py" +:+ Py.nl +:+ "{}```".

(** [ErrorManager.__init__]; [Webhook.from_url] gives a partial webhook.
    The two assignments to [bot.on_error] and [bot.on_command_error] install
    [bot_on_error] and [bot_command_error] in the framework and change no
    attribute of the manager. *)
Definition init (b : Bot) (settings : CommandErrorSettings) (cd : Z) : ErrorManager :=
  {| bot := b; cooldown := cd; _most_recent := None; errors := ∅;
     error_webhook_partial := true; oce_settings := settings |}.

Definition default_cooldown : Z := 5 * 1000000.

(** ** The world a coroutine of the manager runs in *)

Inductive LogRecord :=
| Info_adding_error (error_str : string)
| Error_releasing (exc_info : BaseException)
| Warning_unknown_guild (guild_id : option Z)
| Debug_waiting (time_between : Z).

(** The keyword arguments [release_error] passes to every [webhook.send]. *)
Record SendKwargs := {
  username : option string;
  avatar_url : option string;
  content : string
}.

(** The HTTP requests the module issues. *)
Inductive Request :=
| WebhookFetch
| WebhookSend (embed : Embed) (kwargs : SendKwargs)
| WebhookSendEmbeds (embeds : list Embed) (kwargs : SendKwargs)
| ContextSend (ctx : Context) (text : string).

(** [manager] holds the attributes of [self]; [utcnow] is the reading of
    the clock; [getcwd] the working directory; [log] the records emitted,
    each with its creation time; [network] tells for each coming HTTP
    request whether it succeeds ([true]) or raises, an exhausted list
    meaning success; [requests] lists the requests that succeeded. *)
Record World := {
  manager : ErrorManager;
  utcnow : Z;
  getcwd : string;
  log : list (Z * LogRecord);
  network : list bool;
  requests : list Request
}.

Definition set_manager (m : ErrorManager) (w : World) : World :=
  {| manager := m; utcnow := utcnow w; getcwd := getcwd w; log := log w;
     network := network w; requests := requests w |}.
Definition set_utcnow (t : Z) (w : World) : World :=
  {| manager := manager w; utcnow := t; getcwd := getcwd w; log := log w;
     network := network w; requests := requests w |}.
Definition set_log (l : list (Z * LogRecord)) (w : World) : World :=
  {| manager := manager w; utcnow := utcnow w; getcwd := getcwd w; log := l;
     network := network w; requests := requests w |}.
Definition set_network (n : list bool) (rs : list Request) (w : World) : World :=
  {| manager := manager w; utcnow := utcnow w; getcwd := getcwd w; log := log w;
     network := n; requests := rs |}.

Definition set_most_recent (t : option Z) (m : ErrorManager) : ErrorManager :=
  {| bot := bot m; cooldown := cooldown m; _most_recent := t; errors := errors m;
     error_webhook_partial := error_webhook_partial m; oce_settings := oce_settings m |}.
Definition set_errors (e : gmap string (list TracebackData)) (m : ErrorManager) : ErrorManager :=
  {| bot := bot m; cooldown := cooldown m; _most_recent := _most_recent m; errors := e;
     error_webhook_partial := error_webhook_partial m; oce_settings := oce_settings m |}.
Definition set_partial (p : bool) (m : ErrorManager) : ErrorManager :=
  {| bot := bot m; cooldown := cooldown m; _most_recent := _most_recent m; errors := errors m;
     error_webhook_partial := p; oce_settings := oce_settings m |}.

(** The exceptions that a coroutine of the module can end with. *)
Inductive PyError := HTTPException | IndexError | AttributeError | ValueError.

Inductive Result (A : Type) :=
| Returned (a : A)
| Raised (e : PyError).
Arguments Returned {A} a.
Arguments Raised {A} e.

(** A coroutine: it transforms the world and returns or raises. *)
Definition M (A : Type) : Type := World -> World * Result A.

#[global] Instance M_ret : MRet M := fun A a w => (w, Returned a).
#[global] Instance M_bind : MBind M := fun A B f m w =>
  match m w with
  | (w', Returned a) => f a w'
  | (w', Raised e) => (w', Raised e)
  end.

Definition raise {A} (e : PyError) : M A := fun w => (w, Raised e).
Definition get_self : M ErrorManager := fun w => (w, Returned (manager w)).
Definition put_self (m : ErrorManager) : M unit := fun w => (set_manager m w, Returned ()).
Definition read_utcnow : M Z := fun w => (w, Returned (utcnow w)).
Definition read_getcwd : M string := fun w => (w, Returned (getcwd w)).

(** [log.info], [log.error], [log.warning], [log.debug] *)
Definition emit (r : LogRecord) : M unit :=
  fun w => (set_log (log w ++ [(utcnow w, r)]) w, Returned ()).

(** An HTTP request: it raises when the network says so. *)
Definition http (r : Request) : M unit := fun w =>
  match network w with
  | false :: rest => (set_network rest (requests w) w, Raised HTTPException)
  | true :: rest => (set_network rest (requests w ++ [r]) w, Returned ())
  | [] => (set_network [] (requests w ++ [r]) w, Returned ())
  end.

(** [asyncio.sleep(seconds)]: a delay that is not positive returns at once. *)
Definition sleep (d : Z) : M unit :=
  fun w => (set_utcnow (utcnow w + Z.max 0 d) w, Returned ()).

(** ** [_yield_code_chunks] *)

Definition _yield_code_chunks (iterable : string) (chunksize : Z) : Result (list string) :=
  let cbs := Z.of_nat (String.length code_blocker) - 2 in
  let step := chunksize - cbs in
  if step =? 0 then Raised ValueError
  else if step <? 0 then Returned []
  else
    Returned
      ((fun i => Py.format code_blocker (Py.slice i (i + Z.to_nat step) iterable))
         <$> Py.range_step (String.length iterable) (Z.to_nat step)).

(** ** [release_error] *)

(** [fmt[k] = v] on a dict kept in insertion order. *)
Fixpoint dict_set (k v : string) (d : list (string * string)) : list (string * string) :=
  match d with
  | [] => [(k, v)]
  | (k', v') :: d' =>
      if String.eqb k' k then (k, v) :: d' else (k', v') :: dict_set k v d'
  end.

(** [fmt.get(k)] *)
Fixpoint dict_get (k : string) (d : list (string * string)) : option string :=
  match d with
  | [] => None
  | (k', v') :: d' => if String.eqb k' k then Some v' else dict_get k d'
  end.

(** Lines 185-186 and 241-243: a partial webhook is fetched and kept. *)
Definition fetch_if_partial : M unit :=
  self ← get_self;
  if error_webhook_partial self
  then _ ← http WebhookFetch;
       self ← get_self;
       put_self (set_partial false self)
  else mret ().

(** Lines 188-216: the metadata of the packet. The result tells whether
    the guild was resolved; the warning is logged by [release_error]. *)
Definition metadata_author (packet : TracebackData) (fmt : list (string * string))
  : list (string * string) :=
  match Py.truthy_int (author packet) with
  | Some a => dict_set "author" ("<@" +:+ Py.str_int a +:+ ">") fmt
  | None => fmt
  end.

Definition metadata_in_guild (b : Bot) (g : Guild) (packet : TracebackData)
    (fmt : list (string * string)) : list (string * string) :=
  let fmt :=
    match Py.truthy_int (channel packet) with
    | Some cid =>
        match get_channel g cid with
        | Some ch =>
            dict_set "channel"
              (channel_name ch +:+ " - " +:+ channel_mention ch +:+ " - ("
                 +:+ Py.str_int (channel_id ch) +:+ ")") fmt
        | None => fmt
        end
    | None => fmt
    end in
  match Py.truthy_int (author packet) with
  | Some aid =>
      match (match get_member g aid with Some m => Some m | None => get_user b aid end) with
      | Some a =>
          dict_set "author"
            (user_str a +:+ " - " +:+ user_mention a +:+ " (" +:+ Py.str_int (user_id a) +:+ ")")
            fmt
      | None => fmt
      end
  | None => fmt
  end.

Definition metadata_unknown_author (packet : TracebackData) (fmt : list (string * string))
  : list (string * string) :=
  match dict_get "author" fmt with
  | Some (String _ _) => fmt
  | _ =>
      match Py.truthy_int (author packet) with
      | Some aid =>
          dict_set "author"
            ("<Unknown User> - <@" +:+ Py.str_int aid +:+ "> (" +:+ Py.str_int aid +:+ ")") fmt
      | None => fmt
      end
  end.

Definition metadata (b : Bot) (packet : TracebackData) : list (string * string) :=
  let fmt := [("time", format_dt (time packet))] in
  let fmt := metadata_author packet fmt in
  let fmt :=
    match get_guild b (guild packet) with
    | Some g =>
        let fmt := dict_set "guild"
                     (guild_name g +:+ " (" +:+ Py.str_int (guild_id g) +:+ ")") fmt in
        metadata_in_guild b g packet fmt
    | None => fmt
    end in
  metadata_unknown_author packet fmt.

Definition dquote : string := String "034" "".

(** Lines 218-224: the [command] entry of the metadata and the title. *)
Definition metadata_command (packet : TracebackData) (fmt : list (string * string))
  : list (string * string) :=
  match command packet with
  | Some c => dict_set "command" (qualified_name c) fmt
  | None => fmt
  end.

Definition display (b : Bot) (packet : TracebackData) : string :=
  match command packet with
  | Some c => "in command " +:+ dquote +:+ qualified_name c +:+ dquote
  | None =>
      match item packet with
      | Some i => "in Item " +:+ item_str i +:+ " of view " +:+ item_view_str i
      | None => "in no command (" +:+ class_name b +:+ ")"
      end
  end.

(** Line 229: the value of the [Metadata] field. *)
Definition metadata_value (fmt : list (string * string)) : string :=
  Py.join Py.nl ((fun kv => "**" +:+ Py.title kv.1 +:+ "**: " +:+ kv.2) <$> fmt).

(** Lines 226-237: the primary embed, before its description is set. *)
Definition primary_embed (b : Bot) (packet : TracebackData) : Embed :=
  let fmt := metadata_command packet (metadata b packet) in
  let embed := new_Embed (Some ("An error has occurred in " +:+ display b packet))
                         (Some (time packet)) None in
  let embed := add_field embed "Metadata" (metadata_value fmt) in
  match user b with
  | Some u => set_author embed (user_str u) (display_avatar_url u)
  | None => embed
  end.

(** Lines 232-239 *)
Definition send_kwargs (b : Bot) : SendKwargs :=
  match user b with
  | Some u => {| username := Some (display_name u);
                 avatar_url := Some (display_avatar_url u);
                 content := "<@349373972103561218>" |}
  | None => {| username := None; avatar_url := None;
               content := "<@349373972103561218>" |}
  end.

(** Lines 252-254: the embed of a further chunk. *)
Definition chunk_embed (b : Bot) (entry : string) : Embed :=
  let embed := new_Embed None None (Some entry) in
  match user b with
  | Some u => set_author embed (user_str u) (display_avatar_url u)
  | None => embed
  end.

(** Lines 250-260: the loop over the remaining chunks; the result is the
    list [embeds] left when the loop ends. *)
Fixpoint send_chunks (b : Bot) (kwargs : SendKwargs) (code_chunks : list string)
    (embeds : list Embed) : M (list Embed) :=
  match code_chunks with
  | [] => mret embeds
  | entry :: rest =>
      let embeds := embeds ++ [chunk_embed b entry] in
      if (List.length embeds =? 10)%nat
      then _ ← http (WebhookSendEmbeds embeds kwargs);
           send_chunks b kwargs rest []
      else send_chunks b kwargs rest embeds
  end.

Definition release_error (traceback : string) (packet : TracebackData) : M unit :=
  _ ← emit (Error_releasing (exception packet));
  _ ← fetch_if_partial;
  self ← get_self;
  _ ← match get_guild (bot self) (guild packet) with
      | Some _ => mret ()
      | None => emit (Warning_unknown_guild (guild packet))
      end;
  let embed := primary_embed (bot self) packet in
  let kwargs := send_kwargs (bot self) in
  _ ← fetch_if_partial;
  match _yield_code_chunks traceback 2000 with
  | Raised e => raise e
  | Returned [] => raise IndexError
  | Returned (first :: code_chunks) =>
      _ ← http (WebhookSend (set_description embed first) kwargs);
      embeds ← send_chunks (bot self) kwargs code_chunks [];
      match embeds with
      | [] => mret ()
      | _ => http (WebhookSendEmbeds embeds kwargs)
      end
  end.

(** ** [add_error] *)

(** Line 287 *)
Definition packet_time (ctx : OriginCtx) (now : Z) : Z :=
  match ctx with
  | NoCtx => now
  | CommandCtx c => created_at (ctx_message c)
  | InteractionCtx i =>
      match int_message i with
      | Some m => created_at m
      | None => now
      end
  end.

(** Lines 286-305: the packet. The addons of an interaction are built and
    then left unused: only a command context updates the packet. *)
Definition make_packet (error : BaseException) (ctx : OriginCtx) (now : Z) : TracebackData :=
  let packet := {| time := packet_time ctx now; exception := error;
                   author := None; guild := None; channel := None;
                   command := None; item := None |} in
  match ctx with
  | CommandCtx c =>
      {| time := time packet; exception := exception packet;
         author := Some (user_id (ctx_author c));
         guild := Py.truthy_int (guild_id <$> ctx_guild c);
         channel := Some (channel_id (ctx_channel c));
         command := ctx_command c;
         item := item packet |}
  | InteractionCtx i => packet
  | NoCtx => packet
  end.

(** Lines 307-309 *)
Definition traceback_string (error : BaseException) (cwd : string) : string :=
  Py.replace (exc_rendered error) cwd "CWD".

(** Lines 310-315 *)
Definition record_packet (key : string) (packet : TracebackData)
    (errs : gmap string (list TracebackData)) : gmap string (list TracebackData) :=
  match errs !! key with
  | Some (p :: ps) => <[key := (p :: ps) ++ [packet]]> errs
  | _ => <[key := [packet]]> errs
  end.

(** Lines 284-315: up to the lock. *)
Definition add_error_record (error : BaseException) (ctx : OriginCtx)
  : M (string * TracebackData) :=
  _ ← emit (Info_adding_error (exc_str error));
  now ← read_utcnow;
  let packet := make_packet error ctx now in
  cwd ← read_getcwd;
  let key := traceback_string error cwd in
  self ← get_self;
  _ ← put_self (set_errors (record_packet key packet (errors self)) self);
  mret (key, packet).

(** Lines 322-331: what the holder of the lock decides. *)
Inductive Decision :=
| ReleaseNow
| WaitThenRelease (time_between : Z).

Definition decide_release (self : ErrorManager) (packet : TracebackData) : Decision :=
  match _most_recent self with
  | None => ReleaseNow
  | Some most_recent =>
      let time_between := time packet - most_recent in
      if cooldown self <? time_between then ReleaseNow
      else WaitThenRelease time_between
  end.

(** Lines 323-324, 329-330 and 338-339 *)
Definition mark_and_release (key : string) (packet : TracebackData) : M unit :=
  now ← read_utcnow;
  self ← get_self;
  _ ← put_self (set_most_recent (Some now) self);
  release_error key packet.

(** Lines 317-339: the body of [async with self._lock], run by one task
    from the acquisition of the lock to its release. *)
Definition locked_section (key : string) (packet : TracebackData) : M unit :=
  self ← get_self;
  match decide_release self packet with
  | ReleaseNow => mark_and_release key packet
  | WaitThenRelease time_between =>
      _ ← emit (Debug_waiting time_between);
      _ ← sleep time_between;
      mark_and_release key packet
  end.

(** [add_error(error=error, ctx=ctx, item=item)], called when the lock is
    free. The parameter [item] is not read by the body. *)
Definition add_error (error : BaseException) (ctx : OriginCtx) (item : option Item) : M unit :=
  '(key, packet) ← add_error_record error ctx;
  locked_section key packet.

(** ** The bridge to the framework *)

Definition non_empty {A} (o : option (list A)) : bool :=
  match o with
  | Some (_ :: _) => true
  | _ => false
  end.

(** Lines 140-150 *)
Definition has_local_error_handler (ctx : Context) : bool :=
  non_empty (extra_events (ctx_bot ctx) !! "on_command_error")
  || match ctx_command ctx with
     | Some c => command_has_error_handler c
     | None => false
     end
  || match ctx_cog ctx with
     | Some c => cog_has_error_handler c
     | None => false
     end.

Definition bot_command_error (ctx : Context) (error : BaseException) : M unit :=
  self ← get_self;
  if check_for_local_error_handlers (oce_settings self) && has_local_error_handler ctx
  then mret ()
  else if isinstance_any error (ignored_errors (oce_settings self)) then mret ()
  else if isinstance error CommandInvokeError_t then
    match exc_original error with
    | Some original => add_error original (CommandCtx ctx) None
    | None => raise AttributeError
    end
  else http (ContextSend ctx (exc_str error)).

(** [bot_on_error]; [exc_info] is [sys.exc_info()[1]]. *)
Definition bot_on_error (exc_info : option BaseException) : M unit :=
  match exc_info with
  | Some error => add_error error NoCtx None
  | None => mret ()
  end.

(** ** Concurrent callers of [add_error]

    Tasks of one event loop call [add_error]. A task runs without
    interruption up to [async with self._lock]; the tasks then take the lock
    in the order of their calls. The task holding the lock either releases
    its error at once or sleeps first, and the lock is held while it
    sleeps. *)

Record System := {
  world : World;
  (** the holder of the lock when it sleeps: the time it wakes at, and its
      traceback string and packet *)
  sleeper : option (Z * string * TracebackData);
  (** the tasks waiting for the lock, oldest first *)
  waiters : list (string * TracebackData);
  (** how the calls that are over ended, oldest first *)
  finished : list (Result unit)
}.

Inductive Event :=
| Tick (d : Z)
| Call (error : BaseException) (ctx : OriginCtx) (item : option Item)
| Acquire
| Wake.

Inductive step : System -> Event -> System -> Prop :=
| step_tick s d :
    0 <= d ->
    step s (Tick d)
      {| world := set_utcnow (utcnow (world s) + d) (world s);
         sleeper := sleeper s; waiters := waiters s; finished := finished s |}
| step_call s error ctx item w' key packet :
    add_error_record error ctx (world s) = (w', Returned (key, packet)) ->
    step s (Call error ctx item)
      {| world := w'; sleeper := sleeper s;
         waiters := waiters s ++ [(key, packet)]; finished := finished s |}
| step_acquire_release s key packet rest w' r :
    sleeper s = None ->
    waiters s = (key, packet) :: rest ->
    decide_release (manager (world s)) packet = ReleaseNow ->
    mark_and_release key packet (world s) = (w', r) ->
    step s Acquire
      {| world := w'; sleeper := None; waiters := rest;
         finished := finished s ++ [r] |}
| step_acquire_wait s key packet rest time_between w' r :
    sleeper s = None ->
    waiters s = (key, packet) :: rest ->
    decide_release (manager (world s)) packet = WaitThenRelease time_between ->
    emit (Debug_waiting time_between) (world s) = (w', r) ->
    step s Acquire
      {| world := w';
         sleeper := Some (utcnow (world s) + Z.max 0 time_between, key, packet);
         waiters := rest; finished := finished s |}
| step_wake s wake_at key packet w' r :
    sleeper s = Some (wake_at, key, packet) ->
    wake_at <= utcnow (world s) ->
    mark_and_release key packet (world s) = (w', r) ->
    step s Wake
      {| world := w'; sleeper := None; waiters := waiters s;
         finished := finished s ++ [r] |}.

(** What an event appends to the aggregator: the traceback string and the
    packet of a call, nothing for the other events. *)
Definition inserted (s : System) (ev : Event) : list (string * TracebackData) :=
  match ev with
  | Call error ctx _ =>
      [(traceback_string error (getcwd (world s)),
        make_packet error ctx (utcnow (world s)))]
  | _ => []
  end.

(** [run s evs hist s']: the events [evs] lead from [s] to [s'], and [hist]
    lists what they inserted, in order. *)
Inductive run : System -> list Event -> list (string * TracebackData) -> System -> Prop :=
| run_nil s : run s [] [] s
| run_cons s ev s1 evs hist s' :
    step s ev s1 ->
    run s1 evs hist s' ->
    run s (ev :: evs) (inserted s ev ++ hist) s'.

(** A manager just built, at time [now]. *)
Definition start (m : ErrorManager) (now : Z) (cwd : string) (net : list bool) : System :=
  {| world := {| manager := m; utcnow := now; getcwd := cwd; log := [];
                 network := net; requests := [] |};
     sleeper := None; waiters := []; finished := [] |}.

(** ** What an observer of the world sees of the deliveries *)

(** The times at which [release_error] was entered, from the log. *)
Definition release_times (l : list (Z * LogRecord)) : list Z :=
  omap (fun r => match r.2 with Error_releasing _ => Some r.1 | _ => None end) l.

(** The packet times of the reports sent, from the timestamps of the
    primary embeds. *)
Definition reported_packet_times (rs : list Request) : list Z :=
  omap (fun r => match r with WebhookSend e _ => timestamp e | _ => None end) rs.

(** The packets of a key, the empty list when the key is absent. *)
Definition packets_of (key : string) (errs : gmap string (list TracebackData))
  : list TracebackData :=
  default [] (errs !! key).

(** The packets that a history inserted under a key. *)
Definition inserted_under (key : string) (hist : list (string * TracebackData))
  : list TracebackData :=
  snd <$> filter (fun kp => kp.1 = key) hist.

(** The delays the holders of the lock logged, each with the time of the
    record. *)
Definition waiting_times (l : list (Z * LogRecord)) : list (Z * Z) :=
  omap (fun r => match r.2 with Debug_waiting d => Some (r.1, d) | _ => None end) l.

(** ** The step relation as a function *)

Definition exec (ev : Event) (s : System) : option System :=
  match ev with
  | Tick d =>
      if 0 <=? d
      then Some {| world := set_utcnow (utcnow (world s) + d) (world s);
                   sleeper := sleeper s; waiters := waiters s; finished := finished s |}
      else None
  | Call error ctx item =>
      match add_error_record error ctx (world s) with
      | (w', Returned (key, packet)) =>
          Some {| world := w'; sleeper := sleeper s;
                  waiters := waiters s ++ [(key, packet)]; finished := finished s |}
      | _ => None
      end
  | Acquire =>
      match sleeper s, waiters s with
      | None, (key, packet) :: rest =>
          match decide_release (manager (world s)) packet with
          | ReleaseNow =>
              let '(w', r) := mark_and_release key packet (world s) in
              Some {| world := w'; sleeper := None; waiters := rest;
                      finished := finished s ++ [r] |}
          | WaitThenRelease time_between =>
              let '(w', _) := emit (Debug_waiting time_between) (world s) in
              Some {| world := w';
                      sleeper := Some (utcnow (world s) + Z.max 0 time_between, key, packet);
                      waiters := rest; finished := finished s |}
          end
      | _, _ => None
      end
  | Wake =>
      match sleeper s with
      | Some (wake_at, key, packet) =>
          if wake_at <=? utcnow (world s)
          then let '(w', r) := mark_and_release key packet (world s) in
               Some {| world := w'; sleeper := None; waiters := waiters s;
                       finished := finished s ++ [r] |}
          else None
      | None => None
      end
  end.

Fixpoint execs (evs : list Event) (s : System) : option System :=
  match evs with
  | [] => Some s
  | ev :: evs' =>
      match exec ev s with
      | Some s1 => execs evs' s1
      | None => None
      end
  end.

(** ** Sample objects *)

Module Sample.

Definition alice : User :=
  {| user_id := 3; user_str := "alice"; display_name := "Alice";
     display_avatar_url := "https://cdn.example/alice.png" |}.

Definition duckbot : User :=
  {| user_id := 1000; user_str := "DuckBot#0001"; display_name := "DuckBot";
     display_avatar_url := "https://cdn.example/duck.png" |}.

Definition general : Channel := {| channel_id := 2; channel_name := "general" |}.

Definition pond : Guild :=
  {| guild_id := 1; guild_name := "Duck Pond";
     channels := {[ 2 := general ]}; members := {[ 3 := alice ]} |}.

Definition the_bot : Bot :=
  {| guilds := {[ 1 := pond ]}; users := {[ 3 := alice ]}; user := Some duckbot;
     class_name := "Bot"; extra_events := ∅ |}.

Definition ping : Command :=
  {| qualified_name := "ping"; command_has_error_handler := false |}.

Definition guarded_ping : Command :=
  {| qualified_name := "ping"; command_has_error_handler := true |}.

Definition context (c : Command) (created : Z) : Context :=
  {| ctx_bot := the_bot; ctx_message := {| created_at := created |};
     ctx_command := Some c; ctx_cog := None; ctx_author := alice;
     ctx_guild := Some pond; ctx_channel := general |}.

Definition interaction : Interaction :=
  {| int_message := None; int_command := Some ping; int_user := alice;
     int_guild := Some pond; int_channel_id := Some 2 |}.

Definition boom : BaseException :=
  mkException ValueError_t "boom"
    ("Traceback (most recent call last):" +:+ Py.nl
       +:+ "  File /home/duck/bot/cogs/fun.py, line 7, in ping" +:+ Py.nl
       +:+ "ValueError: boom" +:+ Py.nl) None.

Definition crash : BaseException :=
  mkException ZeroDivisionError_t "division by zero"
    ("Traceback (most recent call last):" +:+ Py.nl
       +:+ "  File /home/duck/bot/cogs/math.py, line 3, in div" +:+ Py.nl
       +:+ "ZeroDivisionError: division by zero" +:+ Py.nl) None.

Definition wrapped : BaseException :=
  mkException CommandInvokeError_t "Command raised an exception: ValueError: boom"
    ("discord.ext.commands.errors.CommandInvokeError: "
       +:+ "Command raised an exception: ValueError: boom" +:+ Py.nl) (Some boom).

Definition not_owner : BaseException :=
  mkException NotOwner_t "You do not own this bot."
    ("discord.ext.commands.errors.NotOwner: You do not own this bot." +:+ Py.nl) None.

(** A manager just built with the default settings and cooldown, in a
    world whose clock reads [now]. *)
Definition manager0 : ErrorManager := init the_bot (default_settings true) default_cooldown.

Definition world0 (now : Z) (net : list bool) : World :=
  {| manager := manager0; utcnow := now; getcwd := "/home/duck/bot"; log := [];
     network := net; requests := [] |}.

Definition system0 : System := start manager0 0 "/home/duck/bot" [].

(** The sample command context, and the same with a command that has
    an error handler of its own. *)
Definition ctx_ping : Context := context ping 0.
Definition ctx_guarded : Context := context guarded_ping 0.

(** Two reports a second apart: the world after the first call, made at
    time 0, and after the second call, made at time 1 s. *)
Definition after_first : World := (add_error boom NoCtx None (world0 0 [])).1.
Definition after_second : World :=
  (add_error crash NoCtx None (set_utcnow 1000000 after_first)).1.

(** The same error reported twice and another one in between. *)
Definition three_calls : list Event :=
  [Call boom NoCtx None; Tick 500000; Call crash (CommandCtx ctx_ping) None;
   Acquire; Call boom (CommandCtx ctx_ping) None; Acquire; Tick 1000000; Wake].

(** A packet of guild 99, which the bot does not know, with the channel
    and the author of the sample guild. *)
Definition stray_packet : TracebackData :=
  {| time := 0; exception := boom; author := Some 3; guild := Some 99;
     channel := Some 2; command := Some ping; item := None |}.

End Sample.

(** ** Notions used in the statements *)

(** Every HTTP request to come succeeds. *)
Definition network_up (w : World) : Prop := Forall (fun b => b = true) (network w).

(** What [release_error] leaves alone. *)
Record same_state (w w' : World) : Prop := {
  same_errors : errors (manager w') = errors (manager w);
  same_most_recent : _most_recent (manager w') = _most_recent (manager w);
  same_bot : bot (manager w') = bot (manager w);
  same_cooldown : cooldown (manager w') = cooldown (manager w);
  same_settings : oce_settings (manager w') = oce_settings (manager w);
  same_utcnow : utcnow w' = utcnow w;
  same_getcwd : getcwd w' = getcwd w
}.

(** The characters of the traceback in one chunk: 2000 less the nine of the
    markers. *)
Definition chunk_payload : nat := 1991.

(** The lists of embeds sent after the primary message: the [full] ones
    and, when it is not empty, the [leftover]. *)
Definition batches (full : list (list Embed)) (leftover : list Embed) : list (list Embed) :=
  full ++ match leftover with
          | [] => []
          | _ => [leftover]
          end.

(** The warning [release_error] logs, if any. *)
Definition unknown_guild_warning (b : Bot) (packet : TracebackData) (now : Z)
  : list (Z * LogRecord) :=
  match get_guild b (guild packet) with
  | Some _ => []
  | None => [(now, Warning_unknown_guild (guild packet))]
  end.

(** The mention line 192 builds from the id of the author. *)
Definition raw_mention (a : Z) : string := "<@" +:+ Py.str_int a +:+ ">".

(** [m] leaves alone what [same_state] lists. *)
Definition preserves {A} (m : M A) : Prop := forall w, same_state w (m w).1.

(** [m] consumes a prefix of the coming responses of the network, and ends
    with [HTTPException] when one of them is a refusal. *)
Definition propagates {A} (m : M A) : Prop :=
  forall w, exists consumed,
    network w = consumed ++ network (m w).1 /\
    (false ∈ consumed -> (m w).2 = Raised HTTPException).

(** The packets of every key hold the traceback string of the key. *)
Definition grouped (w : World) : Prop :=
  forall k packet,
    packet ∈ packets_of k (errors (manager w)) ->
    traceback_string (exception packet) (getcwd w) = k.

(** ** Notions used in the further properties *)

(** [m], started with a webhook that is not partial, issues no fetch and
    leaves the webhook as it is. *)
Definition no_fetch {A} (m : M A) : Prop :=
  forall w, error_webhook_partial (manager w) = false ->
    exists new,
      requests (m w).1 = requests w ++ new /\
      (WebhookFetch ∉ new) /\
      error_webhook_partial (manager (m w).1) = false.

(** The exceptions whose release was logged, oldest first. *)
Definition released (l : list (Z * LogRecord)) : list BaseException :=
  omap (fun r => match r.2 with Error_releasing e => Some e | _ => None end) l.

(** A record that is neither the release of an error nor a wait. *)
Definition quiet_record (r : Z * LogRecord) : Prop :=
  match r.2 with
  | Error_releasing _ | Debug_waiting _ => False
  | _ => True
  end.

(** [m] logs quiet records only. *)
Definition quiet {A} (m : M A) : Prop :=
  forall w, exists extra, log (m w).1 = log w ++ extra /\ Forall quiet_record extra.

(** The exceptions of the calls that are not over: the one of the sleeper,
    then those of the waiters. *)
Definition pending (s : System) : list BaseException :=
  match sleeper s with
  | Some (_, _, packet) => [exception packet]
  | None => []
  end ++ ((fun kp => exception kp.2) <$> waiters s).

(** Line 213: the author entry of a resolved member or user. *)
Definition describe_user (a : User) : string :=
  user_str a +:+ " - " +:+ user_mention a +:+ " (" +:+ Py.str_int (user_id a) +:+ ")".

(** Line 206: the channel entry. *)
Definition describe_channel (ch : Channel) : string :=
  channel_name ch +:+ " - " +:+ channel_mention ch +:+ " - ("
    +:+ Py.str_int (channel_id ch) +:+ ")".

(** The time a call of [add_error] sleeps. *)
Definition delay_of (self : ErrorManager) (packet : TracebackData) : Z :=
  match decide_release self packet with
  | ReleaseNow => 0
  | WaitThenRelease time_between => Z.max 0 time_between
  end.

(** The system after the three sample calls. *)
Definition after_three_calls : System :=
  default Sample.system0 (execs Sample.three_calls Sample.system0).

(** * The webserver cog ([discord/ext/duck/webserver])

    [BaseWebserver.start], [BaseWebserver.close] and the three methods of
    [WebserverCog]. The calls into aiohttp are events: each one succeeds or
    raises as the list [aiohttp] tells, as for the requests of the manager. *)

Module webserver.

(** The calls into aiohttp: [runner.setup()], [TCPSite(...).start()],
    [runner.cleanup()] and [TCPSite.stop()]. A port is [None] when it is
    [MISSING]. *)
Inductive AioCall :=
| RunnerSetup
| SiteStart (host : string) (port : option Z)
| RunnerCleanup
| SiteStop.

(** A subclass of [WebserverCog], as [__init_subclass__] leaves it. *)
Record CogClass := {
  cls_name : string;
  __runner_port__ : option Z;
  __runner_host__ : string
}.

(** An instance: [self._webserver] (the host and port of the site, when
    there is one), the calls into aiohttp that succeeded, the debug
    messages of [self.logger], and the outcomes of the coming calls into
    aiohttp, an exhausted list meaning success. *)
Record Server := {
  _webserver : option (string * option Z);
  calls : list AioCall;
  debug : list string;
  aiohttp : list bool
}.

Inductive Outcome :=
| Done
| AiohttpError
| RuntimeError (message : string).

Definition log_debug (msg : string) (s : Server) : Server :=
  {| _webserver := _webserver s; calls := calls s; debug := debug s ++ [msg];
     aiohttp := aiohttp s |}.

Definition set_webserver (site : option (string * option Z)) (s : Server) : Server :=
  {| _webserver := site; calls := calls s; debug := debug s; aiohttp := aiohttp s |}.

(** A call into aiohttp. *)
Definition aio (c : AioCall) (s : Server) : Server * Outcome :=
  match aiohttp s with
  | false :: rest =>
      ({| _webserver := _webserver s; calls := calls s; debug := debug s;
          aiohttp := rest |}, AiohttpError)
  | _ :: rest =>
      ({| _webserver := _webserver s; calls := calls s ++ [c]; debug := debug s;
          aiohttp := rest |}, Done)
  | [] =>
      ({| _webserver := _webserver s; calls := calls s ++ [c]; debug := debug s;
          aiohttp := [] |}, Done)
  end.

(** [BaseWebserver.start(host=host, port=port)] *)
Definition start (name host : string) (port : option Z) (s : Server) : Server * Outcome :=
  let s := log_debug ("Starting " +:+ name +:+ " runner.") s in
  match aio RunnerSetup s with
  | (s, Done) =>
      let s := log_debug ("Starting " +:+ name +:+ " webserver.") s in
      let s := set_webserver (Some (host, port)) s in
      aio (SiteStart host port) s
  | (s, e) => (s, e)
  end.

(** [BaseWebserver.close()] *)
Definition close (name : string) (s : Server) : Server * Outcome :=
  let s := log_debug ("Cleaning up after " +:+ name +:+ ".") s in
  match aio RunnerCleanup s with
  | (s, Done) =>
      match _webserver s with
      | Some _ =>
          let s := log_debug ("Closing " +:+ name +:+ " webserver.") s in
          aio SiteStop s
      | None => (s, Done)
      end
  | (s, e) => (s, e)
  end.

(** [WebserverCog.__init_subclass__(auto_start=..., host=..., port=...)] for
    the class named [name]: the class, or the message of the
    [RuntimeError]. *)
Definition __init_subclass__ (name : string) (auto_start : bool) (host : string)
    (port : option Z) : CogClass + string :=
  match auto_start, port with
  | true, None =>
      inr ("A port must be provided when auto_start=True. For example:" +:+ Py.nl
             +:+ Py.nl +:+ "class " +:+ name +:+ "(WebserverCog, port=8080):" +:+ Py.nl
             +:+ "    ..." +:+ Py.nl
             +:+ Py.nl +:+ "class " +:+ name +:+ "(WebserverCog, auto_start=False):"
             +:+ Py.nl +:+ "    " +:+ dquote +:+ dquote +:+ dquote
             +:+ "You are responsible for calling (async) self.start(port=...) when using this."
             +:+ dquote +:+ dquote +:+ dquote +:+ Py.nl +:+ Py.nl)
  | _, _ => inl {| cls_name := name; __runner_port__ := port; __runner_host__ := host |}
  end.

(** [WebserverCog.cog_load]: the [return] of the [finally] clause discards
    an exception of [start]; [super().cog_load()] does nothing. *)
Definition cog_load (cls : CogClass) (s : Server) : Server * Outcome :=
  let '(s, _) := start (cls_name cls) (__runner_host__ cls) (__runner_port__ cls) s in
  (s, Done).

(** [WebserverCog.cog_unload], likewise. *)
Definition cog_unload (cls : CogClass) (s : Server) : Server * Outcome :=
  let '(s, _) := close (cls_name cls) s in
  (s, Done).

(** [BaseWebserver.__init__], as far as the site goes. *)
Definition new_server (outcomes : list bool) : Server :=
  {| _webserver := None; calls := []; debug := []; aiohttp := outcomes |}.

End webserver.

(** A traceback of [n] characters. *)
Fixpoint stars (n : nat) : string :=
  match n with
  | O => ""
  | S k => String "*" (stars k)
  end.

(** A traceback one character longer than eleven chunks: twelve fragments. *)
Definition long_traceback : string := stars (11 * 1991 + 1).

(** The sample manager with [check_for_local_error_handlers] off. *)
Definition manager_unchecked : ErrorManager :=
  init Sample.the_bot
    {| hijack := true; ignored_errors := [NotOwner_t; CommandNotFound_t];
       check_for_local_error_handlers := false |} default_cooldown.

(** * Properties *)

(** ** Strings *)

Lemma length_append (s1 s2 : string) :
  String.length (s1 +:+ s2) = (String.length s1 + String.length s2)%nat.
Proof.
  induction s1 as [|c s1 IH]; [reflexivity|].
  change (S (String.length (s1 +:+ s2)) = S (String.length s1 + String.length s2)).
  by rewrite IH.
Qed.

Lemma length_str_take (n : nat) (s : string) :
  String.length (Py.str_take n s) = Nat.min n (String.length s).
Proof.
  revert s; induction n as [|n IH]; intros [|c s]; simpl; auto.
Qed.

Lemma length_str_drop (n : nat) (s : string) :
  String.length (Py.str_drop n s) = (String.length s - n)%nat.
Proof.
  revert s; induction n as [|n IH]; intros [|c s]; simpl; auto.
Qed.

Lemma length_slice (i j : nat) (s : string) :
  String.length (Py.slice i j s) = Nat.min (j - i) (String.length s - i).
Proof. unfold Py.slice. by rewrite length_str_take, length_str_drop. Qed.

(** [code_blocker.format(x)] puts [x] between the two markers, which take
    nine characters. *)
Lemma format_code_blocker (x : string) :
  Py.format code_blocker x = "```py" +:+ Py.nl +:+ x +:+ "```".
Proof. reflexivity. Qed.

Lemma length_format_code_blocker (x : string) :
  String.length (Py.format code_blocker x) = (String.length x + 9)%nat.
Proof.
  rewrite format_code_blocker, !length_append. simpl. lia.
Qed.

(** ** [range] *)

Lemma length_range_step (stop step : nat) :
  List.length (Py.range_step stop step) = ((stop + step - 1) / step)%nat.
Proof. unfold Py.range_step. by rewrite length_fmap, length_seq. Qed.

Lemma lookup_range_step (stop step k : nat) :
  (k < (stop + step - 1) / step)%nat ->
  Py.range_step stop step !! k = Some (k * step)%nat.
Proof.
  intros Hk. unfold Py.range_step.
  rewrite list_lookup_fmap, lookup_seq_lt by done. reflexivity.
Qed.

(** The number of items of [range(0, stop, step)] is the ceiling of
    [stop / step]. *)
Lemma range_step_ceiling (stop step : nat) :
  (0 < stop)%nat -> (0 < step)%nat ->
  let n := ((stop + step - 1) / step)%nat in
  (step * (n - 1) < stop <= step * n)%nat.
Proof.
  intros Hstop Hstep n.
  assert (Hdiv : (stop + step - 1 = step * n + (stop + step - 1) mod step)%nat)
    by (apply Nat.div_mod; lia).
  assert (Hmod : ((stop + step - 1) mod step < step)%nat)
    by (apply Nat.mod_upper_bound; lia).
  assert (Hn : (0 < n)%nat).
  { destruct n as [|n']; [|lia]. exfalso. rewrite Nat.mul_0_r in Hdiv. lia. }
  split; nia.
Qed.

(** ** [_yield_code_chunks] with the default chunk size *)

Lemma yield_code_chunks_2000 (text : string) :
  _yield_code_chunks text 2000 =
  Returned ((fun i => Py.format code_blocker (Py.slice i (i + chunk_payload) text))
              <$> Py.range_step (String.length text) chunk_payload).
Proof. reflexivity. Qed.

Lemma code_chunks_facts (text : string) :
  (0 < String.length text)%nat ->
  exists chunks,
    _yield_code_chunks text 2000 = Returned chunks /\
    (chunk_payload * (List.length chunks - 1) < String.length text
       <= chunk_payload * List.length chunks)%nat /\
    (forall k, (k < List.length chunks)%nat ->
       chunks !! k =
         Some ("```py" +:+ Py.nl
                 +:+ Py.slice (k * chunk_payload) ((k + 1) * chunk_payload) text
                 +:+ "```")) /\
    Forall (fun c => (String.length c <= 2000)%nat) chunks.
Proof.
  intros Hlen. eexists. split; [apply yield_code_chunks_2000|].
  rewrite length_fmap, length_range_step.
  split; [apply range_step_ceiling; unfold chunk_payload; lia|].
  split.
  - intros k Hk. rewrite list_lookup_fmap, lookup_range_step by done.
    cbn [fmap option_fmap option_map]. rewrite format_code_blocker.
    by replace (k * chunk_payload + chunk_payload)%nat
      with ((k + 1) * chunk_payload)%nat by lia.
  - apply Forall_fmap, Forall_forall. intros i _. cbn [compose].
    rewrite length_format_code_blocker, length_slice. unfold chunk_payload. lia.
Qed.

(** ** The monad and the network *)

Lemma bind_unfold {A B} (m : M A) (f : A -> M B) (w : World) :
  (m ≫= f) w =
  match m w with
  | (w', Returned a) => f a w'
  | (w', Raised e) => (w', Raised e)
  end.
Proof. reflexivity. Qed.

Lemma bind_returned {A B} (m : M A) (f : A -> M B) (w w' : World) (a : A) :
  m w = (w', Returned a) -> (m ≫= f) w = f a w'.
Proof. intros H. by rewrite bind_unfold, H. Qed.

Lemma bind_raised {A B} (m : M A) (f : A -> M B) (w w' : World) (e : PyError) :
  m w = (w', Raised e) -> (m ≫= f) w = (w', Raised e).
Proof. intros H. by rewrite bind_unfold, H. Qed.

Lemma same_state_refl w : same_state w w.
Proof. by split. Qed.

Lemma same_state_trans w1 w2 w3 :
  same_state w1 w2 -> same_state w2 w3 -> same_state w1 w3.
Proof. intros [] []. split; congruence. Qed.

Lemma http_up (r : Request) (w : World) :
  network_up w ->
  exists w', http r w = (w', Returned ()) /\
    requests w' = requests w ++ [r] /\ log w' = log w /\
    manager w' = manager w /\ same_state w w' /\ network_up w'.
Proof.
  unfold network_up, http. intros Hup.
  destruct (network w) as [|[] rest] eqn:Hn.
  - eexists; repeat split; simpl; try done; by constructor.
  - eexists; repeat split; simpl; try done; by inversion Hup.
  - by inversion Hup.
Qed.

Lemma http_down (r : Request) (w : World) (rest : list bool) :
  network w = false :: rest ->
  http r w = (set_network rest (requests w) w, Raised HTTPException).
Proof. unfold http. by intros ->. Qed.

Lemma http_same_state (r : Request) (w : World) : same_state w (http r w).1.
Proof. unfold http. destruct (network w) as [|[] ?]; by split. Qed.

Lemma fetch_if_partial_up (w : World) :
  network_up w ->
  exists w', fetch_if_partial w = (w', Returned ()) /\
    requests w' =
      requests w ++ (if error_webhook_partial (manager w) then [WebhookFetch] else []) /\
    log w' = log w /\ error_webhook_partial (manager w') = false /\
    same_state w w' /\ network_up w'.
Proof.
  intros Hup. unfold fetch_if_partial. rewrite bind_unfold. cbn [get_self].
  destruct (error_webhook_partial (manager w)) eqn:Hp.
  - destruct (http_up WebhookFetch w Hup) as (w1 & Hw1 & Hr & Hl & Hm & Hs & Hu).
    rewrite (bind_returned _ _ _ _ _ Hw1). eexists. split; [reflexivity|].
    simpl. destruct Hs. repeat split; try done; simpl; congruence.
  - exists w. rewrite app_nil_r. repeat split; try done.
Qed.

Lemma fetch_if_partial_same_state (w : World) : same_state w (fetch_if_partial w).1.
Proof.
  unfold fetch_if_partial. rewrite bind_unfold. cbn [get_self].
  destruct (error_webhook_partial (manager w)); [|apply same_state_refl].
  rewrite bind_unfold. pose proof (http_same_state WebhookFetch w) as Hs.
  destruct (http WebhookFetch w) as [w1 [[]|e]]; simpl in *; [|done].
  destruct Hs. by split.
Qed.

(** ** The loop over the remaining chunks *)

(** With the network up, the loop sends one request per ten embeds and
    leaves fewer than ten in [embeds]. *)
Lemma send_chunks_up (b : Bot) (kwargs : SendKwargs) (code_chunks : list string) :
  forall (embeds : list Embed) (w : World),
    (List.length embeds < 10)%nat ->
    network_up w ->
    exists w' full leftover,
      send_chunks b kwargs code_chunks embeds w = (w', Returned leftover) /\
      requests w' = requests w ++ ((fun es => WebhookSendEmbeds es kwargs) <$> full) /\
      Forall (fun es => List.length es = 10%nat) full /\
      (List.length leftover < 10)%nat /\
      concat full ++ leftover = embeds ++ (chunk_embed b <$> code_chunks) /\
      log w' = log w /\ manager w' = manager w /\ same_state w w' /\ network_up w'.
Proof.
  induction code_chunks as [|entry rest IH]; intros embeds w Hlen Hup.
  - exists w, [], embeds. simpl. rewrite !app_nil_r.
    repeat split; try done.
  - cbn [send_chunks].
    destruct (Nat.eqb_spec (List.length (embeds ++ [chunk_embed b entry])) 10) as [Hten|Hne].
    + destruct (http_up (WebhookSendEmbeds (embeds ++ [chunk_embed b entry]) kwargs) w Hup)
        as (w1 & Hw1 & Hr1 & Hl1 & Hm1 & Hs1 & Hu1).
      rewrite (bind_returned _ _ _ _ _ Hw1).
      destruct (IH [] w1) as (w' & full & leftover & Hrun & Hr & Hfull & Hleft & Hcat & Hl & Hm & Hs & Hu);
        [simpl; lia|done|].
      exists w', ((embeds ++ [chunk_embed b entry]) :: full), leftover.
      split; [done|]. split.
      { rewrite Hr, Hr1, fmap_cons. by rewrite <- app_assoc. }
      split; [by constructor|]. split; [done|]. split.
      { simpl in *. rewrite <- app_assoc, Hcat. by rewrite <- app_assoc. }
      split; [congruence|]. split; [congruence|].
      split; [by eapply same_state_trans|done].
    + rewrite length_app in Hne. simpl in Hne.
      destruct (IH (embeds ++ [chunk_embed b entry]) w)
        as (w' & full & leftover & Hrun & Hr & Hfull & Hleft & Hcat & Hrest);
        [rewrite length_app; simpl; lia|done|].
      exists w', full, leftover. split; [done|]. split; [done|].
      split; [done|]. split; [done|]. split; [|done].
      rewrite Hcat. by rewrite <- app_assoc.
Qed.

(** ** [release_error] with the network up *)

Lemma emit_eq (r : LogRecord) (w : World) :
  emit r w = (set_log (log w ++ [(utcnow w, r)]) w, Returned ()).
Proof. reflexivity. Qed.

Lemma release_error_up (traceback : string) (packet : TracebackData) (w : World) :
  network_up w ->
  (0 < String.length traceback)%nat ->
  let b := bot (manager w) in
  exists w' first others full leftover,
    release_error traceback packet w = (w', Returned ()) /\
    _yield_code_chunks traceback 2000 = Returned (first :: others) /\
    requests w' =
      requests w
        ++ (if error_webhook_partial (manager w) then [WebhookFetch] else [])
        ++ [WebhookSend (set_description (primary_embed b packet) first) (send_kwargs b)]
        ++ ((fun es => WebhookSendEmbeds es (send_kwargs b)) <$> batches full leftover) /\
    Forall (fun es => List.length es = 10%nat) full /\
    (List.length leftover < 10)%nat /\
    concat full ++ leftover = chunk_embed b <$> others /\
    log w' =
      log w ++ [(utcnow w, Error_releasing (exception packet))]
            ++ unknown_guild_warning b packet (utcnow w) /\
    same_state w w' /\ network_up w'.
Proof.
  intros Hup Hlen b.
  destruct (code_chunks_facts traceback Hlen) as (chunks & Hchunks & [_ Hceil] & _ & _).
  destruct chunks as [|first others]; [simpl in Hceil; lia|].
  unfold release_error. rewrite bind_unfold, emit_eq.
  set (w0 := set_log _ w).
  assert (Hup0 : network_up w0) by done.
  destruct (fetch_if_partial_up w0 Hup0) as (w1 & Hw1 & Hr1 & Hl1 & Hp1 & Hs1 & Hup1).
  rewrite (bind_returned _ _ _ _ _ Hw1), bind_unfold. cbn [get_self].
  assert (Hb : bot (manager w1) = b) by (destruct Hs1; done).
  rewrite Hb.
  assert (Hguild : exists w2,
    (match get_guild b (guild packet) with
     | Some _ => mret ()
     | None => emit (Warning_unknown_guild (guild packet))
     end) w1 = (w2, Returned ()) /\
    requests w2 = requests w1 /\
    log w2 = log w1 ++ unknown_guild_warning b packet (utcnow w) /\
    manager w2 = manager w1 /\ same_state w1 w2 /\ network_up w2).
  { unfold unknown_guild_warning. destruct (get_guild b (guild packet)).
    - exists w1. rewrite app_nil_r. repeat split; done.
    - eexists. split; [apply emit_eq|]. destruct Hs1. simpl in *.
      repeat split; try done. by rewrite same_utcnow0. }
  destruct Hguild as (w2 & Hw2 & Hr2 & Hl2 & Hm2 & Hs2 & Hup2).
  rewrite (bind_returned _ _ _ _ _ Hw2).
  destruct (fetch_if_partial_up w2 Hup2) as (w3 & Hw3 & Hr3 & Hl3 & Hp3 & Hs3 & Hup3).
  rewrite Hm2, Hp1, app_nil_r in Hr3.
  rewrite (bind_returned _ _ _ _ _ Hw3), Hchunks.
  set (primary := WebhookSend _ _).
  destruct (http_up primary w3 Hup3) as (w4 & Hw4 & Hr4 & Hl4 & Hm4 & Hs4 & Hup4).
  rewrite (bind_returned _ _ _ _ _ Hw4).
  destruct (send_chunks_up b (send_kwargs b) others [] w4)
    as (w5 & full & leftover & Hw5 & Hr5 & Hfull & Hleft & Hcat & Hl5 & Hm5 & Hs5 & Hup5);
    [simpl; lia|done|].
  rewrite (bind_returned _ _ _ _ _ Hw5).
  assert (Hreq : requests w5 =
    requests w
      ++ (if error_webhook_partial (manager w) then [WebhookFetch] else [])
      ++ [primary] ++ ((fun es => WebhookSendEmbeds es (send_kwargs b)) <$> full)).
  { rewrite Hr5, Hr4, Hr3, Hr2, Hr1. simpl. by rewrite <- !app_assoc. }
  assert (Hlog : log w5 =
    log w ++ [(utcnow w, Error_releasing (exception packet))]
          ++ unknown_guild_warning b packet (utcnow w)).
  { rewrite Hl5, Hl4, Hl3, Hl2, Hl1. simpl. by rewrite <- !app_assoc. }
  assert (Hsame : same_state w w5).
  { eapply same_state_trans; [|exact Hs5]. eapply same_state_trans; [|exact Hs4].
    eapply same_state_trans; [|exact Hs3]. eapply same_state_trans; [|exact Hs2].
    eapply same_state_trans; [|exact Hs1]. by split. }
  destruct leftover as [|e leftover].
  - exists w5, first, others, full, []. unfold batches. rewrite app_nil_r.
    repeat split; try done; apply Hsame.
  - destruct (http_up (WebhookSendEmbeds (e :: leftover) (send_kwargs b)) w5 Hup5)
      as (w6 & Hw6 & Hr6 & Hl6 & Hm6 & Hs6 & Hup6).
    exists w6, first, others, full, (e :: leftover). unfold batches.
    split; [done|]. split; [done|]. split.
    { rewrite Hr6, Hreq, fmap_app. simpl. by rewrite <- !app_assoc. }
    split; [done|]. split; [done|]. split; [done|]. split; [congruence|].
    split; [by eapply same_state_trans|done].
Qed.

Lemma length_concat_full (full : list (list Embed)) :
  Forall (fun es => List.length es = 10%nat) full ->
  List.length (concat full) = (10 * List.length full)%nat.
Proof.
  induction 1 as [|es full Hes _ IH]; [reflexivity|].
  simpl. rewrite length_app, Hes, IH. lia.
Qed.

Lemma batches_sizes (full : list (list Embed)) (leftover : list Embed) :
  Forall (fun es => List.length es = 10%nat) full ->
  (List.length leftover < 10)%nat ->
  Forall (fun es => (1 <= List.length es <= 10)%nat) (batches full leftover).
Proof.
  intros Hfull Hleft. unfold batches. apply Forall_app. split.
  - eapply Forall_impl; [exact Hfull|]. simpl. lia.
  - destruct leftover; [constructor|].
    apply Forall_cons; split; [simpl in *; lia|constructor].
Qed.

Lemma concat_batches (full : list (list Embed)) (leftover : list Embed) :
  concat (batches full leftover) = concat full ++ leftover.
Proof.
  unfold batches. rewrite concat_app. destruct leftover; simpl; by rewrite ?app_nil_r.
Qed.

(** ** The metadata of a packet whose guild is unknown *)

Lemma metadata_unknown_guild (b : Bot) (packet : TracebackData) :
  get_guild b (guild packet) = None ->
  metadata b packet =
    ("time", format_dt (time packet)) ::
    match Py.truthy_int (author packet) with
    | Some a => [("author", raw_mention a)]
    | None => []
    end.
Proof.
  intros Hg. unfold metadata, metadata_author, metadata_unknown_author. rewrite Hg.
  destruct (Py.truthy_int (author packet)) as [a|]; reflexivity.
Qed.

Lemma primary_embed_fields (b : Bot) (packet : TracebackData) :
  fields (primary_embed b packet) =
    [("Metadata", metadata_value (metadata_command packet (metadata b packet)))].
Proof. unfold primary_embed. by destruct (user b). Qed.

Lemma primary_embed_description (b : Bot) (packet : TracebackData) (first : string) :
  description (set_description (primary_embed b packet) first) = Some first.
Proof. reflexivity. Qed.

(** ** Chunks and batches *)

Lemma length_stars (n : nat) : String.length (stars n) = n.
Proof. induction n as [|n IH]; simpl; congruence. Qed.

Lemma description_chunk_embed (b : Bot) (entry : string) :
  description (chunk_embed b entry) = Some entry.
Proof. unfold chunk_embed. by destruct (user b). Qed.

(** C7. A non-empty traceback of N characters, released with the network
    up, is cut into the ceiling of N / 1991 fragments, 1991 being 2000 less
    the nine characters of the code-block markers: the k-th fragment is the
    k-th run of 1991 characters between the markers and has at most 2000
    characters. The first fragment is the description of the embed of the
    primary message; the other fragments are, in order, the descriptions of
    the embeds that follow, ten per request for each full ten, and one more
    request for a remainder. *)
Theorem release_error_chunks_and_batches
    (traceback : string) (packet : TracebackData) (w : World) :
  network_up w ->
  (0 < String.length traceback)%nat ->
  let b := bot (manager w) in
  exists w' first others full leftover,
    release_error traceback packet w = (w', Returned ()) /\
    _yield_code_chunks traceback 2000 = Returned (first :: others) /\
    ((2000 - 9) * (List.length (first :: others) - 1) < String.length traceback
       <= (2000 - 9) * List.length (first :: others))%nat /\
    (forall k, (k < List.length (first :: others))%nat ->
       (first :: others) !! k =
         Some ("```py" +:+ Py.nl
                 +:+ Py.slice (k * (2000 - 9)) ((k + 1) * (2000 - 9)) traceback
                 +:+ "```")) /\
    Forall (fun c => (String.length c <= 2000)%nat) (first :: others) /\
    requests w' =
      requests w
        ++ (if error_webhook_partial (manager w) then [WebhookFetch] else [])
        ++ [WebhookSend (set_description (primary_embed b packet) first) (send_kwargs b)]
        ++ ((fun es => WebhookSendEmbeds es (send_kwargs b)) <$> batches full leftover) /\
    description (set_description (primary_embed b packet) first) = Some first /\
    concat (batches full leftover) = chunk_embed b <$> others /\
    description <$> concat (batches full leftover) = Some <$> others /\
    Forall (fun es => (1 <= List.length es <= 10)%nat) (batches full leftover) /\
    Forall (fun es => List.length es = 10%nat) full /\
    (List.length leftover < 10)%nat /\
    List.length others = (10 * List.length full + List.length leftover)%nat.
Proof.
  intros Hup Hlen b.
  destruct (release_error_up traceback packet w Hup Hlen)
    as (w' & first & others & full & leftover & Hrun & Hchunks & Hreq & Hfull & Hleft
        & Hcat & _).
  destruct (code_chunks_facts traceback Hlen) as (chunks & Hchunks' & Hceil & Hk & Hsize).
  rewrite Hchunks in Hchunks'. injection Hchunks' as <-.
  exists w', first, others, full, leftover.
  split; [done|]. split; [done|]. split; [exact Hceil|]. split; [exact Hk|].
  split; [done|]. split; [exact Hreq|]. split; [reflexivity|].
  split; [by rewrite concat_batches|]. split.
  { rewrite concat_batches, Hcat, <- list_fmap_compose.
    apply list_fmap_ext. intros i c _. apply description_chunk_embed. }
  split; [by apply batches_sizes|].
  split; [done|]. split; [done|].
  apply (f_equal (@List.length Embed)) in Hcat.
  rewrite length_app, length_concat_full, length_fmap in Hcat by done. lia.
Qed.

(** ** A packet whose guild is unknown *)

(** The entries of [fmt] when the guild is unknown: the time, the raw
    mention of an author whose id is not zero, and the command. *)
Lemma metadata_command_unknown_guild (b : Bot) (packet : TracebackData) :
  get_guild b (guild packet) = None ->
  metadata_command packet (metadata b packet) =
    ("time", format_dt (time packet)) ::
    match Py.truthy_int (author packet) with
    | Some a => [("author", raw_mention a)]
    | None => []
    end ++
    match command packet with
    | Some c => [("command", qualified_name c)]
    | None => []
    end.
Proof.
  intros Hg. unfold metadata_command. rewrite (metadata_unknown_guild _ _ Hg).
  destruct (Py.truthy_int (author packet)), (command packet); reflexivity.
Qed.

(** C9. When the guild id of the packet resolves to no guild,
    [release_error], run with the network up on a non-empty traceback,
    returns without raising: it logs the error and then the warning, it
    sends the primary message, and the metadata of that message has no
    guild entry. *)
Theorem release_error_unknown_guild_delivers
    (traceback : string) (packet : TracebackData) (w : World) :
  get_guild (bot (manager w)) (guild packet) = None ->
  network_up w ->
  (0 < String.length traceback)%nat ->
  let b := bot (manager w) in
  let fmt := metadata_command packet (metadata b packet) in
  exists w' first others,
    release_error traceback packet w = (w', Returned ()) /\
    _yield_code_chunks traceback 2000 = Returned (first :: others) /\
    log w' = log w ++ [(utcnow w, Error_releasing (exception packet));
                       (utcnow w, Warning_unknown_guild (guild packet))] /\
    WebhookSend (set_description (primary_embed b packet) first) (send_kwargs b)
      ∈ requests w' /\
    fields (primary_embed b packet) = [("Metadata", metadata_value fmt)] /\
    dict_get "guild" fmt = None.
Proof.
  intros Hg Hup Hlen b fmt.
  destruct (release_error_up traceback packet w Hup Hlen)
    as (w' & first & others & full & leftover & Hrun & Hchunks & Hreq & _ & _ & _
        & Hlog & _).
  exists w', first, others.
  split; [done|]. split; [done|]. split.
  { rewrite Hlog. unfold unknown_guild_warning. by rewrite Hg. }
  split.
  { rewrite Hreq, !elem_of_app. right. right. left.
    apply list_elem_of_singleton. reflexivity. }
  split; [apply primary_embed_fields|].
  unfold fmt, b. rewrite (metadata_command_unknown_guild _ _ Hg).
  destruct (Py.truthy_int (author packet)), (command packet); reflexivity.
Qed.

(** C10. When the guild id of the packet resolves to no guild, the
    metadata that [release_error] sends holds the time, the author and the
    command only: there is no channel entry, whatever channel id the packet
    carries, and the author, whatever members and users the bot knows, is
    the raw mention of its id. *)
Theorem release_error_unknown_guild_metadata
    (traceback : string) (packet : TracebackData) (w : World) :
  get_guild (bot (manager w)) (guild packet) = None ->
  network_up w ->
  (0 < String.length traceback)%nat ->
  let b := bot (manager w) in
  let fmt := metadata_command packet (metadata b packet) in
  exists w' first others,
    release_error traceback packet w = (w', Returned ()) /\
    _yield_code_chunks traceback 2000 = Returned (first :: others) /\
    WebhookSend (set_description (primary_embed b packet) first) (send_kwargs b)
      ∈ requests w' /\
    fields (primary_embed b packet) = [("Metadata", metadata_value fmt)] /\
    dict_get "guild" fmt = None /\
    dict_get "channel" fmt = None /\
    dict_get "author" fmt = raw_mention <$> Py.truthy_int (author packet) /\
    fmt = ("time", format_dt (time packet)) ::
          match Py.truthy_int (author packet) with
          | Some a => [("author", raw_mention a)]
          | None => []
          end ++
          match command packet with
          | Some c => [("command", qualified_name c)]
          | None => []
          end.
Proof.
  intros Hg Hup Hlen b fmt.
  destruct (release_error_up traceback packet w Hup Hlen)
    as (w' & first & others & full & leftover & Hrun & Hchunks & Hreq & _).
  exists w', first, others.
  split; [done|]. split; [done|]. split.
  { rewrite Hreq, !elem_of_app. right. right. left.
    apply list_elem_of_singleton. reflexivity. }
  split; [apply primary_embed_fields|].
  unfold fmt, b. rewrite (metadata_command_unknown_guild _ _ Hg).
  destruct (Py.truthy_int (author packet)), (command packet); repeat split; reflexivity.
Qed.

(** ** What [release_error] never touches, whatever the network does *)

Lemma preserves_bind {A B} (m : M A) (f : A -> M B) :
  preserves m -> (forall a, preserves (f a)) -> preserves (m ≫= f).
Proof.
  intros Hm Hf w. rewrite bind_unfold. specialize (Hm w).
  destruct (m w) as [w1 [a|e]]; simpl in *; [|done].
  eapply same_state_trans; [exact Hm|apply Hf].
Qed.

Lemma preserves_mret {A} (a : A) : preserves (mret a : M A).
Proof. intros w. apply same_state_refl. Qed.

Lemma preserves_raise {A} (e : PyError) : preserves (raise e : M A).
Proof. intros w. apply same_state_refl. Qed.

Lemma preserves_emit (r : LogRecord) : preserves (emit r).
Proof. intros w. by split. Qed.

Lemma preserves_http (r : Request) : preserves (http r).
Proof. intros w. apply http_same_state. Qed.

Lemma preserves_get_self : preserves get_self.
Proof. intros w. apply same_state_refl. Qed.

Lemma preserves_fetch_if_partial : preserves fetch_if_partial.
Proof. intros w. apply fetch_if_partial_same_state. Qed.

Lemma preserves_send_chunks (b : Bot) (kwargs : SendKwargs) (code_chunks : list string) :
  forall embeds, preserves (send_chunks b kwargs code_chunks embeds).
Proof.
  induction code_chunks as [|entry rest IH]; intros embeds; cbn [send_chunks].
  - apply preserves_mret.
  - destruct (List.length (embeds ++ [chunk_embed b entry]) =? 10)%nat; [|apply IH].
    apply preserves_bind; [apply preserves_http|]. intros _. apply IH.
Qed.

Lemma preserves_release_error (traceback : string) (packet : TracebackData) :
  preserves (release_error traceback packet).
Proof.
  unfold release_error.
  apply preserves_bind; [apply preserves_emit|intros _].
  apply preserves_bind; [apply preserves_fetch_if_partial|intros _].
  apply preserves_bind; [apply preserves_get_self|intros self].
  apply preserves_bind.
  { destruct (get_guild _ _); [apply preserves_mret|apply preserves_emit]. }
  intros _. apply preserves_bind; [apply preserves_fetch_if_partial|intros _].
  destruct (_yield_code_chunks traceback 2000) as [[|first rest]|e];
    try apply preserves_raise.
  apply preserves_bind; [apply preserves_http|intros _].
  apply preserves_bind; [apply preserves_send_chunks|intros embeds].
  destruct embeds; [apply preserves_mret|apply preserves_http].
Qed.

(** ** The aggregator *)

Lemma add_error_record_eq (error : BaseException) (ctx : OriginCtx) (w : World) :
  let key := traceback_string error (getcwd w) in
  let packet := make_packet error ctx (utcnow w) in
  let w0 := set_log (log w ++ [(utcnow w, Info_adding_error (exc_str error))]) w in
  add_error_record error ctx w =
    (set_manager (set_errors (record_packet key packet (errors (manager w))) (manager w)) w0,
     Returned (key, packet)).
Proof. reflexivity. Qed.

Lemma packets_of_record_packet (k key : string) (packet : TracebackData)
    (errs : gmap string (list TracebackData)) :
  packets_of k (record_packet key packet errs) =
    if decide (k = key) then packets_of key errs ++ [packet] else packets_of k errs.
Proof.
  unfold packets_of, record_packet.
  destruct (decide (k = key)) as [->|Hne].
  - destruct (errs !! key) as [[|p ps]|]; by rewrite lookup_insert_eq.
  - destruct (errs !! key) as [[|p ps]|]; by rewrite lookup_insert_ne.
Qed.

Lemma exception_make_packet (error : BaseException) (ctx : OriginCtx) (now : Z) :
  exception (make_packet error ctx now) = error.
Proof. by destruct ctx. Qed.

Lemma inserted_under_single (k key : string) (packet : TracebackData) :
  inserted_under k [(key, packet)] = if decide (k = key) then [packet] else [].
Proof.
  unfold inserted_under. rewrite filter_cons, filter_nil. simpl.
  destruct (decide (key = k)) as [->|Hne].
  - by rewrite decide_True.
  - by rewrite decide_False.
Qed.

Lemma inserted_under_app (k : string) (h1 h2 : list (string * TracebackData)) :
  inserted_under k (h1 ++ h2) = inserted_under k h1 ++ inserted_under k h2.
Proof. unfold inserted_under. by rewrite filter_app, fmap_app. Qed.

Lemma mark_and_release_eq (key : string) (packet : TracebackData) (w : World) :
  mark_and_release key packet w =
    release_error key packet
      (set_manager (set_most_recent (Some (utcnow w)) (manager w)) w).
Proof. reflexivity. Qed.

Lemma mark_and_release_errors (key : string) (packet : TracebackData) (w : World) :
  errors (manager (mark_and_release key packet w).1) = errors (manager w) /\
  getcwd (mark_and_release key packet w).1 = getcwd w.
Proof.
  rewrite mark_and_release_eq.
  destruct (preserves_release_error key packet
              (set_manager (set_most_recent (Some (utcnow w)) (manager w)) w)) as [He _ _ _ _ _ Hc].
  by rewrite He, Hc.
Qed.

(** One event: the working directory stays, and the packets of every key are
    those it had followed by what the event inserted under it. *)
Lemma step_errors (s s' : System) (ev : Event) :
  step s ev s' ->
  getcwd (world s') = getcwd (world s) /\
  forall k, packets_of k (errors (manager (world s'))) =
            packets_of k (errors (manager (world s))) ++ inserted_under k (inserted s ev).
Proof.
  intros Hstep. destruct Hstep as
    [s d Hd | s error ctx it w' key packet Hrec
    | s key packet rest w' r Hs Hw Hdec Hrel
    | s key packet rest tb w' r Hs Hw Hdec Hemit
    | s wake key packet w' r Hs Hwake Hrel]; cbn [world inserted].
  - split; [done|]. intros k. by rewrite app_nil_r.
  - rewrite add_error_record_eq in Hrec. injection Hrec as <- <- <-.
    split; [done|]. intros k. cbn [manager set_manager errors set_errors].
    rewrite packets_of_record_packet, inserted_under_single.
    destruct (decide _) as [->|]; [done|by rewrite app_nil_r].
  - destruct (mark_and_release_errors key packet (world s)) as [He Hc].
    rewrite Hrel in He, Hc. simpl in He, Hc. rewrite He, Hc.
    split; [done|]. intros k. by rewrite app_nil_r.
  - rewrite emit_eq in Hemit. injection Hemit as <- _.
    split; [done|]. intros k. by rewrite app_nil_r.
  - destruct (mark_and_release_errors key packet (world s)) as [He Hc].
    rewrite Hrel in He, Hc. simpl in He, Hc. rewrite He, Hc.
    split; [done|]. intros k. by rewrite app_nil_r.
Qed.

Lemma inserted_keys (s : System) (ev : Event) :
  Forall (fun kp => kp.1 = traceback_string (exception kp.2) (getcwd (world s)))
         (inserted s ev).
Proof.
  destruct ev; cbn [inserted]; try constructor; [|constructor].
  simpl. by rewrite exception_make_packet.
Qed.

Lemma grouped_step (s s' : System) (ev : Event) :
  step s ev s' -> grouped (world s) -> grouped (world s').
Proof.
  intros Hstep Hg k packet. destruct (step_errors _ _ _ Hstep) as [Hcwd Hk].
  rewrite Hk, Hcwd, elem_of_app. intros [Hin|Hin]; [by apply Hg|].
  unfold inserted_under in Hin. apply list_elem_of_fmap in Hin as ([k' p] & -> & Hin).
  apply list_elem_of_filter in Hin as [Hk' Hin]. simpl in Hk'. subst k'.
  pose proof (inserted_keys s ev) as Hkeys.
  rewrite Forall_forall in Hkeys. by rewrite <- (Hkeys _ Hin).
Qed.

(** C4. Along every run of the system, whatever the events between the
    calls of [add_error]: the list of every key is the list it had, followed
    by the packets inserted under that key, in the order of the calls; what
    a call inserts goes under the traceback string of its error, that is its
    rendered traceback with the working directory replaced by [CWD], so two
    errors with the same such text share one key; and the property that
    every packet lies under the traceback string of its exception is kept. *)
Theorem errors_grouped_in_insertion_order
    (s s' : System) (evs : list Event) (hist : list (string * TracebackData)) :
  run s evs hist s' ->
  (forall key,
     packets_of key (errors (manager (world s'))) =
       packets_of key (errors (manager (world s))) ++ inserted_under key hist) /\
  Forall (fun kp => kp.1 = Py.replace (exc_rendered (exception kp.2)) (getcwd (world s)) "CWD")
         hist /\
  (grouped (world s) -> grouped (world s')) /\
  getcwd (world s') = getcwd (world s).
Proof.
  induction 1 as [s|s ev s1 evs hist s' Hstep Hrun IH].
  - split; [|done]. intros key. by rewrite app_nil_r.
  - destruct IH as (Hk & Hkeys & Hg & Hcwd).
    destruct (step_errors _ _ _ Hstep) as [Hcwd1 Hk1].
    split; [|split; [|split]].
    + intros key. by rewrite Hk, Hk1, inserted_under_app, <- app_assoc.
    + apply Forall_app. split; [apply (inserted_keys s ev)|].
      by rewrite Hcwd1 in Hkeys.
    + intros Hgs. by apply Hg, (grouped_step _ _ _ Hstep).
    + congruence.
Qed.

(** ** Exceptions of the network are not caught *)

Lemma propagates_pure {A} (m : M A) :
  (forall w, network (m w).1 = network w) -> propagates m.
Proof.
  intros Hm w. exists []. split; [by rewrite Hm|]. by intros ?%elem_of_nil.
Qed.

Lemma propagates_bind {A B} (m : M A) (f : A -> M B) :
  propagates m -> (forall a, propagates (f a)) -> propagates (m ≫= f).
Proof.
  intros Hm Hf w. rewrite bind_unfold.
  destruct (Hm w) as (c1 & Hc1 & Hr1).
  destruct (m w) as [w1 [a|e]]; simpl in *.
  - destruct (Hf a w1) as (c2 & Hc2 & Hr2).
    exists (c1 ++ c2). split.
    { rewrite <- app_assoc, <- Hc2. exact Hc1. }
    rewrite elem_of_app. intros [Hin|Hin]; [by specialize (Hr1 Hin)|by apply Hr2].
  - exists c1. split; [done|]. intros Hin. specialize (Hr1 Hin). by injection Hr1 as ->.
Qed.

Lemma propagates_http (r : Request) : propagates (http r).
Proof.
  intros w. unfold http. destruct (network w) as [|[] rest] eqn:Hn; simpl.
  - exists []. split; [done|]. by intros ?%elem_of_nil.
  - exists [true]. split; [done|]. by intros ?%list_elem_of_singleton.
  - exists [false]. split; done.
Qed.

Lemma propagates_fetch_if_partial : propagates fetch_if_partial.
Proof.
  unfold fetch_if_partial. apply propagates_bind; [by apply propagates_pure|intros self].
  destruct (error_webhook_partial self); [|by apply propagates_pure].
  apply propagates_bind; [apply propagates_http|intros _].
  apply propagates_bind; [by apply propagates_pure|intros ?]. by apply propagates_pure.
Qed.

Lemma propagates_send_chunks (b : Bot) (kwargs : SendKwargs) (code_chunks : list string) :
  forall embeds, propagates (send_chunks b kwargs code_chunks embeds).
Proof.
  induction code_chunks as [|entry rest IH]; intros embeds; cbn [send_chunks].
  - by apply propagates_pure.
  - destruct (List.length (embeds ++ [chunk_embed b entry]) =? 10)%nat; [|apply IH].
    apply propagates_bind; [apply propagates_http|]. intros _. apply IH.
Qed.

Lemma propagates_release_error (traceback : string) (packet : TracebackData) :
  propagates (release_error traceback packet).
Proof.
  unfold release_error.
  apply propagates_bind; [by apply propagates_pure|intros _].
  apply propagates_bind; [apply propagates_fetch_if_partial|intros _].
  apply propagates_bind; [by apply propagates_pure|intros self].
  apply propagates_bind.
  { destruct (get_guild _ _); by apply propagates_pure. }
  intros _. apply propagates_bind; [apply propagates_fetch_if_partial|intros _].
  destruct (_yield_code_chunks traceback 2000) as [[|first rest]|e];
    try by apply propagates_pure.
  apply propagates_bind; [apply propagates_http|intros _].
  apply propagates_bind; [apply propagates_send_chunks|intros embeds].
  destruct embeds; [by apply propagates_pure|apply propagates_http].
Qed.

Lemma propagates_mark_and_release (key : string) (packet : TracebackData) :
  propagates (mark_and_release key packet).
Proof.
  unfold mark_and_release.
  apply propagates_bind; [by apply propagates_pure|intros now].
  apply propagates_bind; [by apply propagates_pure|intros self].
  apply propagates_bind; [by apply propagates_pure|intros _].
  apply propagates_release_error.
Qed.

Lemma propagates_locked_section (key : string) (packet : TracebackData) :
  propagates (locked_section key packet).
Proof.
  unfold locked_section.
  apply propagates_bind; [by apply propagates_pure|intros self].
  destruct (decide_release self packet); [apply propagates_mark_and_release|].
  apply propagates_bind; [by apply propagates_pure|intros _].
  apply propagates_bind; [by apply propagates_pure|intros _].
  apply propagates_mark_and_release.
Qed.

Lemma propagates_add_error (error : BaseException) (ctx : OriginCtx) (item : option Item) :
  propagates (add_error error ctx item).
Proof.
  unfold add_error.
  apply propagates_bind; [by apply propagates_pure|intros [key packet]].
  apply propagates_locked_section.
Qed.

Lemma locked_section_eq (key : string) (packet : TracebackData) (w : World) :
  locked_section key packet w =
    match decide_release (manager w) packet with
    | ReleaseNow => mark_and_release key packet w
    | WaitThenRelease d =>
        mark_and_release key packet
          (set_utcnow (utcnow w + Z.max 0 d)
             (set_log (log w ++ [(utcnow w, Debug_waiting d)]) w))
    end.
Proof.
  unfold locked_section. rewrite bind_unfold. cbn [get_self].
  by destruct (decide_release (manager w) packet).
Qed.

(** The locked section leaves the aggregator as it finds it. *)
Lemma locked_section_errors (key : string) (packet : TracebackData) (w : World) :
  errors (manager (locked_section key packet w).1) = errors (manager w).
Proof.
  rewrite locked_section_eq.
  destruct (decide_release (manager w) packet) as [|d].
  - apply mark_and_release_errors.
  - by destruct (mark_and_release_errors key packet
      (set_utcnow (utcnow w + Z.max 0 d)
         (set_log (log w ++ [(utcnow w, Debug_waiting d)]) w))) as [-> _].
Qed.

Lemma add_error_eq (error : BaseException) (ctx : OriginCtx) (item : option Item) (w : World) :
  add_error error ctx item w =
    locked_section (traceback_string error (getcwd w)) (make_packet error ctx (utcnow w))
      (add_error_record error ctx w).1.
Proof. reflexivity. Qed.

Lemma add_error_errors (error : BaseException) (ctx : OriginCtx) (item : option Item)
    (w : World) :
  errors (manager (add_error error ctx item w).1) =
    record_packet (traceback_string error (getcwd w)) (make_packet error ctx (utcnow w))
      (errors (manager w)).
Proof. by rewrite add_error_eq, locked_section_errors. Qed.

(** ** A refused request *)

Lemma fetch_if_partial_full (w : World) :
  error_webhook_partial (manager w) = false -> fetch_if_partial w = (w, Returned ()).
Proof.
  intros Hp. unfold fetch_if_partial. rewrite bind_unfold. cbn [get_self]. by rewrite Hp.
Qed.

Lemma fetch_if_partial_down (w : World) (rest : list bool) :
  error_webhook_partial (manager w) = true ->
  network w = false :: rest ->
  (fetch_if_partial w).2 = Raised HTTPException.
Proof.
  intros Hp Hn. unfold fetch_if_partial. rewrite bind_unfold. cbn [get_self].
  rewrite Hp. by rewrite (bind_raised _ _ _ _ _ (http_down _ _ _ Hn)).
Qed.

(** When the first request to come is refused, [release_error] of a
    non-empty traceback raises. *)
Lemma release_error_down (traceback : string) (packet : TracebackData) (w : World)
    (rest : list bool) :
  network w = false :: rest ->
  (0 < String.length traceback)%nat ->
  (release_error traceback packet w).2 = Raised HTTPException.
Proof.
  intros Hn Hlen.
  destruct (code_chunks_facts traceback Hlen) as (chunks & Hchunks & [_ Hceil] & _ & _).
  destruct chunks as [|first others]; [simpl in Hceil; lia|].
  unfold release_error. rewrite bind_unfold, emit_eq.
  set (w0 := set_log _ w).
  destruct (error_webhook_partial (manager w0)) eqn:Hp.
  - pose proof (fetch_if_partial_down w0 rest Hp Hn) as Hdown.
    rewrite bind_unfold. by destruct (fetch_if_partial w0) as [w1 [[]|e]]; simpl in *; subst.
  - rewrite (bind_returned _ _ _ _ _ (fetch_if_partial_full w0 Hp)), bind_unfold.
    cbn [get_self].
    set (warn := match get_guild _ _ with Some _ => _ | None => _ end).
    assert (Hwarn : exists w2, warn w0 = (w2, Returned ()) /\
              network w2 = false :: rest /\ error_webhook_partial (manager w2) = false).
    { unfold warn. destruct (get_guild _ _); eexists; split; try reflexivity; done. }
    destruct Hwarn as (w2 & Hw2 & Hn2 & Hp2).
    rewrite (bind_returned _ _ _ _ _ Hw2).
    rewrite (bind_returned _ _ _ _ _ (fetch_if_partial_full w2 Hp2)), Hchunks.
    by rewrite (bind_raised _ _ _ _ _ (http_down _ _ _ Hn2)).
Qed.

Lemma add_error_down (error : BaseException) (ctx : OriginCtx) (item : option Item)
    (w : World) (rest : list bool) :
  network w = false :: rest ->
  (0 < String.length (traceback_string error (getcwd w)))%nat ->
  (add_error error ctx item w).2 = Raised HTTPException.
Proof.
  intros Hn Hlen. rewrite add_error_eq, locked_section_eq.
  destruct (decide_release _ _); rewrite mark_and_release_eq;
    by eapply release_error_down.
Qed.

(** C8. Whatever the network does during [add_error], the call leaves in
    [errors] the map it built before taking the lock: the packet is the last
    entry of the list of its traceback string. The call consumes a prefix of
    the responses of the network, and when one of them is a refusal it ends
    with the exception of the transport; this is so in particular when the
    first request is refused. *)
Theorem add_error_transport_failure
    (error : BaseException) (ctx : OriginCtx) (item : option Item) (w : World) :
  let key := traceback_string error (getcwd w) in
  let packet := make_packet error ctx (utcnow w) in
  let w' := (add_error error ctx item w).1 in
  let outcome := (add_error error ctx item w).2 in
  errors (manager w') = record_packet key packet (errors (manager w)) /\
  packets_of key (errors (manager w')) = packets_of key (errors (manager w)) ++ [packet] /\
  (exists consumed,
     network w = consumed ++ network w' /\
     (false ∈ consumed -> outcome = Raised HTTPException)) /\
  (forall rest,
     network w = false :: rest -> (0 < String.length key)%nat ->
     outcome = Raised HTTPException).
Proof.
  intros key packet w' outcome. split; [apply add_error_errors|]. split.
  { unfold w'. rewrite add_error_errors, packets_of_record_packet. by rewrite decide_True. }
  split; [apply propagates_add_error|].
  intros rest Hn Hlen. by eapply add_error_down.
Qed.

(** ** The step function follows the step relation *)

Lemma exec_sound (ev : Event) (s s' : System) : exec ev s = Some s' -> step s ev s'.
Proof.
  destruct ev as [d|error ctx it| |]; cbn [exec].
  - destruct (Z.leb_spec 0 d); [|done]. intros [= <-]. by constructor.
  - destruct (add_error_record error ctx (world s)) as [w' [[key packet]|e]] eqn:Hrec; [|done].
    intros [= <-]. by econstructor.
  - destruct (sleeper s) eqn:Hs; [done|].
    destruct (waiters s) as [|[key packet] rest] eqn:Hw; [done|].
    destruct (decide_release (manager (world s)) packet) as [|d] eqn:Hd.
    + destruct (mark_and_release key packet (world s)) as [w' r] eqn:Hrel.
      intros [= <-]. by eapply step_acquire_release.
    + destruct (emit (Debug_waiting d) (world s)) as [w' r] eqn:Hemit.
      intros [= <-]. by eapply step_acquire_wait.
  - destruct (sleeper s) as [[[wake_at key] packet]|] eqn:Hs; [|done].
    destruct (Z.leb_spec wake_at (utcnow (world s))); [|done].
    destruct (mark_and_release key packet (world s)) as [w' r] eqn:Hrel.
    intros [= <-]. by eapply step_wake.
Qed.

Lemma execs_sound (evs : list Event) :
  forall s s', execs evs s = Some s' -> exists hist, run s evs hist s'.
Proof.
  induction evs as [|ev evs IH]; intros s s'; cbn [execs].
  - intros [= <-]. exists []. constructor.
  - destruct (exec ev s) as [s1|] eqn:Hexec; [|done]. intros Hrest.
    destruct (IH _ _ Hrest) as [hist Hrun].
    eexists. econstructor; [by apply exec_sound|exact Hrun].
Qed.

(** A call of [add_error] on a system at rest is a run of the system: the
    call, the acquisition of the lock and, when the task has to wait, the
    delay and the wake-up. *)
Lemma add_error_is_a_run (error : BaseException) (ctx : OriginCtx) (item : option Item)
    (s : System) :
  sleeper s = None -> waiters s = [] ->
  exists evs hist s',
    run s evs hist s' /\
    world s' = (add_error error ctx item (world s)).1 /\
    finished s' = finished s ++ [(add_error error ctx item (world s)).2] /\
    sleeper s' = None /\ waiters s' = [].
Proof.
  intros Hs Hw. rewrite add_error_eq, locked_section_eq.
  set (key := traceback_string error (getcwd (world s))).
  set (packet := make_packet error ctx (utcnow (world s))).
  set (w1 := (add_error_record error ctx (world s)).1).
  destruct (decide_release (manager w1) packet) as [|d] eqn:Hd.
  - destruct (execs_sound [Call error ctx item; Acquire] s
      {| world := (mark_and_release key packet w1).1; sleeper := None; waiters := [];
         finished := finished s ++ [(mark_and_release key packet w1).2] |}) as [hist Hrun].
    { cbn [execs exec]. rewrite add_error_record_eq. cbn [sleeper waiters world].
      rewrite Hs, Hw. cbn [app]. fold key packet.
      change (set_manager _ _) with w1. rewrite Hd.
      by destruct (mark_and_release key packet w1). }
    eexists _, hist, _. split; [exact Hrun|done].
  - set (w2 := set_log (log w1 ++ [(utcnow w1, Debug_waiting d)]) w1).
    set (w3 := set_utcnow (utcnow w1 + Z.max 0 d) w2).
    destruct (execs_sound [Call error ctx item; Acquire; Tick (Z.max 0 d); Wake] s
      {| world := (mark_and_release key packet w3).1; sleeper := None; waiters := [];
         finished := finished s ++ [(mark_and_release key packet w3).2] |}) as [hist Hrun].
    { cbn [execs exec]. rewrite add_error_record_eq. cbn [sleeper waiters world].
      rewrite Hs, Hw. cbn [app]. fold key packet.
      change (set_manager _ _) with w1. rewrite Hd. rewrite emit_eq.
      cbn [sleeper waiters world finished].
      destruct (Z.leb_spec 0 (Z.max 0 d)); [|lia].
      cbn [sleeper waiters world finished utcnow set_utcnow set_log].
      rewrite Z.leb_refl. fold w2. change (set_utcnow _ w2) with w3.
      by destruct (mark_and_release key packet w3). }
    eexists _, hist, _. split; [exact Hrun|done].
Qed.

(** ** The delivery scheduler *)

(** What the holder of the lock does when it has to wait: it sleeps for
    [time_between], the time of the packet less the time of the last
    release, whatever the cooldown is, and releases the error then. *)
Lemma locked_section_wait (key : string) (packet : TracebackData) (w : World) (last : Z) :
  _most_recent (manager w) = Some last ->
  time packet - last <= cooldown (manager w) ->
  locked_section key packet w =
    mark_and_release key packet
      (set_utcnow (utcnow w + Z.max 0 (time packet - last))
         (set_log (log w ++ [(utcnow w, Debug_waiting (time packet - last))]) w)).
Proof.
  intros Hlast Hle. rewrite locked_section_eq. unfold decide_release. rewrite Hlast.
  destruct (Z.ltb_spec (cooldown (manager w)) (time packet - last)); [lia|done].
Qed.

(** Two errors reported in the same instant: the second call finds
    [time_between] equal to zero, sleeps for no time, and both are released
    at time 0. *)
Lemma simultaneous_errors_released_together :
  exists hist s',
    run Sample.system0
        [Call Sample.boom NoCtx None; Call Sample.crash NoCtx None;
         Acquire; Acquire; Wake]
        hist s' /\
    waiting_times (log (world s')) = [(0, 0)] /\
    release_times (log (world s')) = [0; 0] /\
    finished s' = [Returned (); Returned ()].
Proof.
  destruct (execs [Call Sample.boom NoCtx None; Call Sample.crash NoCtx None;
                   Acquire; Acquire; Wake]
                  Sample.system0) as [s'|] eqn:Hex; [|by vm_compute in Hex].
  destruct (execs_sound _ _ _ Hex) as [hist Hrun].
  exists hist, s'. split; [exact Hrun|].
  vm_compute in Hex. injection Hex as <-. by vm_compute.
Qed.

(** C1. With the cooldown of five seconds, a first error reported at time 0
    and a second one a second later, both without context: the second call
    finds [time_between] equal to one second, sleeps that second and
    releases its error at time 2 s. The two reports carry packet times a
    second apart and are released two seconds apart, both less than the
    cooldown. *)
Theorem burst_released_within_cooldown :
  exists hist s',
    run Sample.system0
        [Call Sample.boom NoCtx None; Acquire; Tick 1000000;
         Call Sample.crash NoCtx None; Acquire; Tick 1000000; Wake]
        hist s' /\
    cooldown (manager (world s')) = 5000000 /\
    reported_packet_times (requests (world s')) = [0; 1000000] /\
    release_times (log (world s')) = [0; 2000000] /\
    finished s' = [Returned (); Returned ()].
Proof.
  destruct (execs [Call Sample.boom NoCtx None; Acquire; Tick 1000000;
                   Call Sample.crash NoCtx None; Acquire; Tick 1000000; Wake]
                  Sample.system0) as [s'|] eqn:Hex; [|by vm_compute in Hex].
  destruct (execs_sound _ _ _ Hex) as [hist Hrun].
  exists hist, s'. split; [exact Hrun|].
  vm_compute in Hex. injection Hex as <-. by vm_compute.
Qed.

(** C2. Two errors reported one second apart to a manager with the cooldown
    of five seconds and no release before: the first is released at once,
    at time 0; the second call logs a wait of one second, sleeps it, and
    releases its error at time 2 s, two seconds after the first and not
    five. *)
Theorem second_error_released_after_one_second :
  cooldown (manager Sample.after_second) = 5000000 /\
  release_times (log Sample.after_first) = [0] /\
  waiting_times (log Sample.after_first) = [] /\
  reported_packet_times (requests Sample.after_second) = [0; 1000000] /\
  waiting_times (log Sample.after_second) = [(1000000, 1000000)] /\
  release_times (log Sample.after_second) = [0; 2000000] /\
  _most_recent (manager Sample.after_second) = Some 2000000.
Proof. by vm_compute. Qed.

(** ** The context extractor *)

(** C3. The packet that [add_error] stores for an interaction has no
    author, guild, channel or command, whatever the interaction holds: the
    addons are built and never merged into the packet. A command context
    with the same user, guild, channel and command stores them all. *)
Theorem interaction_packet_has_no_addons
    (error : BaseException) (ctx : Interaction) (item : option Item) (w : World) :
  let key := traceback_string error (getcwd w) in
  let packet := make_packet error (InteractionCtx ctx) (utcnow w) in
  packets_of key (errors (manager (add_error error (InteractionCtx ctx) item w).1)) =
    packets_of key (errors (manager w)) ++ [packet] /\
  author packet = None /\ guild packet = None /\
  channel packet = None /\ command packet = None /\
  (let stored := make_packet Sample.boom (InteractionCtx Sample.interaction) 0 in
   let expected := make_packet Sample.boom (CommandCtx (Sample.context Sample.ping 0)) 0 in
   (author stored, guild stored, channel stored, command stored) = (None, None, None, None) /\
   (author expected, guild expected, channel expected, command expected) =
     (Some 3, Some 1, Some 2, Some Sample.ping)).
Proof.
  intros key packet. split.
  { rewrite add_error_errors, packets_of_record_packet. by rewrite decide_True. }
  repeat split.
Qed.

(** ** The command-error bridge *)

Lemma issubclass_refl (t : ExcType) : issubclass t t = true.
Proof. by destruct t. Qed.

Lemma isinstance_any_elem (error : BaseException) (cs : list ExcType) :
  exc_type error ∈ cs -> isinstance_any error cs = true.
Proof.
  intros Hin. unfold isinstance_any. apply existsb_exists.
  exists (exc_type error). split; [by apply list_elem_of_In|apply issubclass_refl].
Qed.

Lemma original_is_not_the_wrapper (error original : BaseException) :
  exc_original error = Some original -> original <> error.
Proof.
  intros Ho Heq. assert (Hd : wrap_depth error = S (wrap_depth original)).
  { destruct error as [t s r o]. simpl in Ho. by subst o. }
  rewrite Heq in Hd. lia.
Qed.

(** Counterexample to C5 as stated. The sample command has an error handler
    of its own and the settings are the default ones: [bot_command_error]
    returns on line 146, so the wrapped error is not escalated; nothing is
    recorded, logged or sent, whereas [add_error] of the original would have
    recorded a packet. *)
Lemma wrapped_error_left_to_local_handler :
  isinstance Sample.wrapped CommandInvokeError_t = true /\
  exc_original Sample.wrapped = Some Sample.boom /\
  bot_command_error Sample.ctx_guarded Sample.wrapped (Sample.world0 0 [])
    = (Sample.world0 0 [], Returned ()) /\
  packets_of (traceback_string Sample.boom "/home/duck/bot")
    (errors (manager (bot_command_error Sample.ctx_guarded Sample.wrapped
                        (Sample.world0 0 [])).1)) = [] /\
  packets_of (traceback_string Sample.boom "/home/duck/bot")
    (errors (manager (add_error Sample.boom (CommandCtx Sample.ctx_guarded) None
                        (Sample.world0 0 [])).1)) <> [].
Proof. by vm_compute. Qed.

(** C5, amended. A wrapped invocation error that no local error handler
    takes and that is not an instance of an ignored class is escalated as
    its [original]: [bot_command_error] is then [add_error] of the
    original with the context, the packet it records holds the original, and
    the original is not the wrapper. *)
Theorem wrapped_error_escalates_original
    (ctx : Context) (error original : BaseException) (w : World) :
  isinstance error CommandInvokeError_t = true ->
  exc_original error = Some original ->
  check_for_local_error_handlers (oce_settings (manager w))
    && has_local_error_handler ctx = false ->
  isinstance_any error (ignored_errors (oce_settings (manager w))) = false ->
  let key := traceback_string original (getcwd w) in
  let packet := make_packet original (CommandCtx ctx) (utcnow w) in
  bot_command_error ctx error w = add_error original (CommandCtx ctx) None w /\
  packets_of key (errors (manager (bot_command_error ctx error w).1)) =
    packets_of key (errors (manager w)) ++ [packet] /\
  exception packet = original /\
  original <> error.
Proof.
  intros Hinv Horig Hlocal Hign key packet.
  assert (Heq : bot_command_error ctx error w = add_error original (CommandCtx ctx) None w).
  { unfold bot_command_error. rewrite bind_unfold. cbn [get_self].
    by rewrite Hlocal, Hign, Hinv, Horig. }
  split; [exact Heq|]. split.
  { rewrite Heq, add_error_errors, packets_of_record_packet. by rewrite decide_True. }
  split; [reflexivity|by apply original_is_not_the_wrapper].
Qed.

Lemma wrapped_error_escalates_original_witness :
  bot_command_error Sample.ctx_ping Sample.wrapped (Sample.world0 0 [])
    = add_error Sample.boom (CommandCtx Sample.ctx_ping) None (Sample.world0 0 []) /\
  packets_of (traceback_string Sample.boom "/home/duck/bot")
    (errors (manager (bot_command_error Sample.ctx_ping Sample.wrapped
                        (Sample.world0 0 [])).1)) =
    [make_packet Sample.boom (CommandCtx Sample.ctx_ping) 0] /\
  exception (make_packet Sample.boom (CommandCtx Sample.ctx_ping) 0) = Sample.boom /\
  Sample.boom <> Sample.wrapped.
Proof.
  apply (wrapped_error_escalates_original Sample.ctx_ping Sample.wrapped Sample.boom
           (Sample.world0 0 [])); reflexivity.
Defined.

(** C6. A command error whose class is one of the ignored classes leaves
    the world as it is: [errors] is unchanged, nothing is logged, released
    or sent to the webhook, and nothing is sent to the context. *)
Theorem ignored_error_changes_nothing (ctx : Context) (error : BaseException) (w : World) :
  exc_type error ∈ ignored_errors (oce_settings (manager w)) ->
  bot_command_error ctx error w = (w, Returned ()).
Proof.
  intros Hin. unfold bot_command_error. rewrite bind_unfold. cbn [get_self].
  destruct (_ && _); [done|]. by rewrite (isinstance_any_elem _ _ Hin).
Qed.

Lemma ignored_error_changes_nothing_witness :
  NotOwner_t ∈ ignored_errors (default_settings true) /\
  bot_command_error Sample.ctx_ping Sample.not_owner (Sample.world0 0 [])
    = (Sample.world0 0 [], Returned ()).
Proof.
  split; [by left|].
  apply (ignored_error_changes_nothing Sample.ctx_ping Sample.not_owner
           (Sample.world0 0 [])).
  simpl. by left.
Defined.

(** ** Instances on the sample objects *)

Lemma release_error_chunks_and_batches_witness :
  exists w' first others batch10 last_embed,
    release_error long_traceback Sample.stray_packet (Sample.world0 0 [])
      = (w', Returned ()) /\
    _yield_code_chunks long_traceback 2000 = Returned (first :: others) /\
    List.length others = 11%nat /\
    requests w' =
      [WebhookFetch;
       WebhookSend (set_description (primary_embed Sample.the_bot Sample.stray_packet) first)
                   (send_kwargs Sample.the_bot);
       WebhookSendEmbeds batch10 (send_kwargs Sample.the_bot);
       WebhookSendEmbeds [last_embed] (send_kwargs Sample.the_bot)] /\
    List.length batch10 = 10%nat /\
    description <$> (batch10 ++ [last_embed]) = Some <$> others.
Proof.
  assert (Hup : network_up (Sample.world0 0 [])) by constructor.
  assert (HN : String.length long_traceback = (11 * 1991 + 1)%nat) by apply length_stars.
  assert (Hlen : (0 < String.length long_traceback)%nat) by (rewrite HN; lia).
  destruct (release_error_chunks_and_batches long_traceback Sample.stray_packet (Sample.world0 0 []) Hup Hlen)
    as (w' & first & others & full & leftover & Hrun & Hchunks & Hceil & _ & _ & Hreq & _
        & _ & Hdesc & _ & Hfull & Hleft & Hcount).
  rewrite HN in Hceil. cbn [List.length] in Hceil.
  assert (Hothers : List.length others = 11%nat) by lia.
  assert (Hf : List.length full = 1%nat) by lia.
  assert (Hl : List.length leftover = 1%nat) by lia.
  destruct full as [|batch10 [|? ?]]; try discriminate.
  destruct leftover as [|last_embed [|? ?]]; try discriminate.
  exists w', first, others, batch10, last_embed.
  split; [exact Hrun|]. split; [exact Hchunks|]. split; [exact Hothers|].
  split; [exact Hreq|]. split; [by inversion Hfull|].
  unfold batches in Hdesc. simpl in Hdesc. rewrite ?app_nil_r in Hdesc. exact Hdesc.
Defined.

Lemma release_error_unknown_guild_delivers_witness :
  get_guild Sample.the_bot (guild Sample.stray_packet) = None /\
  exists w',
    release_error (exc_rendered Sample.boom) Sample.stray_packet (Sample.world0 0 [])
      = (w', Returned ()) /\
    log w' = [(0, Error_releasing Sample.boom); (0, Warning_unknown_guild (Some 99))] /\
    dict_get "guild" (metadata_command Sample.stray_packet
                        (metadata Sample.the_bot Sample.stray_packet)) = None.
Proof.
  assert (Hg : get_guild (bot (manager (Sample.world0 0 []))) (guild Sample.stray_packet)
               = None) by reflexivity.
  assert (Hup : network_up (Sample.world0 0 [])) by constructor.
  assert (Hlen : (0 < String.length (exc_rendered Sample.boom))%nat) by (simpl; lia).
  split; [exact Hg|].
  destruct (release_error_unknown_guild_delivers (exc_rendered Sample.boom)
              Sample.stray_packet (Sample.world0 0 []) Hg Hup Hlen)
    as (w' & first & others & Hrun & _ & Hlog & _ & _ & Hguild).
  by exists w'.
Defined.

Lemma release_error_unknown_guild_metadata_witness :
  get_guild Sample.the_bot (guild Sample.stray_packet) = None /\
  get_channel Sample.pond 2 = Some Sample.general /\
  get_user Sample.the_bot 3 = Some Sample.alice /\
  exists w',
    release_error (exc_rendered Sample.boom) Sample.stray_packet (Sample.world0 0 [])
      = (w', Returned ()) /\
    metadata_command Sample.stray_packet (metadata Sample.the_bot Sample.stray_packet) =
      [("time", "<t:0>"); ("author", "<@3>"); ("command", "ping")].
Proof.
  assert (Hg : get_guild (bot (manager (Sample.world0 0 []))) (guild Sample.stray_packet)
               = None) by reflexivity.
  assert (Hup : network_up (Sample.world0 0 [])) by constructor.
  assert (Hlen : (0 < String.length (exc_rendered Sample.boom))%nat) by (simpl; lia).
  split; [exact Hg|]. split; [reflexivity|]. split; [reflexivity|].
  destruct (release_error_unknown_guild_metadata (exc_rendered Sample.boom)
              Sample.stray_packet (Sample.world0 0 []) Hg Hup Hlen)
    as (w' & first & others & Hrun & _ & _ & _ & _ & _ & _ & Hfmt).
  exists w'. split; [exact Hrun|]. exact Hfmt.
Defined.

Lemma errors_grouped_in_insertion_order_witness :
  exists hist s',
    run Sample.system0 Sample.three_calls hist s' /\
    (forall key,
       packets_of key (errors (manager (world s'))) = inserted_under key hist) /\
    Forall (fun kp => kp.1 = Py.replace (exc_rendered (exception kp.2)) "/home/duck/bot" "CWD")
           hist /\
    packets_of (traceback_string Sample.boom "/home/duck/bot") (errors (manager (world s')))
      = [make_packet Sample.boom NoCtx 0;
         make_packet Sample.boom (CommandCtx Sample.ctx_ping) 500000].
Proof.
  destruct (execs Sample.three_calls Sample.system0) as [s'|] eqn:Hex;
    [|by vm_compute in Hex].
  destruct (execs_sound _ _ _ Hex) as [hist Hrun].
  destruct (errors_grouped_in_insertion_order _ _ _ _ Hrun) as (Hk & Hkeys & _ & _).
  exists hist, s'. split; [exact Hrun|]. split; [exact Hk|]. split; [exact Hkeys|].
  vm_compute in Hex. injection Hex as <-. by vm_compute.
Defined.

Lemma add_error_transport_failure_witness :
  (add_error Sample.boom NoCtx None (Sample.world0 0 [false])).2 = Raised HTTPException /\
  packets_of (traceback_string Sample.boom "/home/duck/bot")
    (errors (manager (add_error Sample.boom NoCtx None (Sample.world0 0 [false])).1))
    = [make_packet Sample.boom NoCtx 0].
Proof.
  destruct (add_error_transport_failure Sample.boom NoCtx None (Sample.world0 0 [false]))
    as (_ & Hk & _ & Hdown).
  split; [|exact Hk].
  apply (Hdown []); [reflexivity|]. vm_compute. lia.
Defined.

(** * Further properties *)

(** ** [_yield_code_chunks]: nothing lost, and the degenerate sizes *)

Lemma append_empty_r (s : string) : s +:+ "" = s.
Proof.
  induction s as [|c s IH]; [reflexivity|].
  change (String c (s +:+ "") = String c s). by rewrite IH.
Qed.

Lemma join_empty_cons (p : string) (ps : list string) :
  Py.join "" (p :: ps) = p +:+ Py.join "" ps.
Proof. destruct ps; simpl; [by rewrite append_empty_r|reflexivity]. Qed.

Lemma str_take_drop (n : nat) (s : string) : Py.str_take n s +:+ Py.str_drop n s = s.
Proof.
  revert s; induction n as [|n IH]; intros [|c s]; try reflexivity.
  change (String c (Py.str_take n s +:+ Py.str_drop n s) = String c s). by rewrite IH.
Qed.

Lemma str_drop_add (a b : nat) (s : string) :
  Py.str_drop (a + b) s = Py.str_drop b (Py.str_drop a s).
Proof.
  revert s; induction a as [|a IH]; intros s; [reflexivity|].
  destruct s as [|c s]; simpl; [by destruct b|apply IH].
Qed.

Lemma slice_shift (step k : nat) (s : string) :
  Py.slice (S k * step) (S k * step + step) s =
  Py.slice (k * step) (k * step + step) (Py.str_drop step s).
Proof.
  unfold Py.slice.
  replace (S k * step + step - S k * step)%nat with (k * step + step - k * step)%nat by lia.
  replace (S k * step)%nat with (step + k * step)%nat by lia.
  by rewrite str_drop_add.
Qed.

(** The runs of [step] characters of a text, one after the other, make up
    the text. *)
Lemma slices_join (step : nat) :
  forall (n : nat) (s : string),
    (String.length s <= n * step)%nat ->
    Py.join "" ((fun k => Py.slice (k * step) (k * step + step) s) <$> seq 0 n) = s.
Proof.
  induction n as [|n IH]; intros s Hlen.
  - destruct s; [reflexivity|simpl in Hlen; lia].
  - rewrite <- cons_seq, fmap_cons, join_empty_cons, <- fmap_S_seq, <- list_fmap_compose.
    rewrite (list_fmap_ext _ (fun k => Py.slice (k * step) (k * step + step)
                                         (Py.str_drop step s)) (seq 0 n))
      by (intros; apply slice_shift).
    rewrite IH by (rewrite length_str_drop; lia).
    unfold Py.slice. replace (0 * step + step - 0 * step)%nat with step by lia.
    apply str_take_drop.
Qed.

(** X1. For every chunk size above the nine characters of the markers, the
    chunks are the pieces of the text, each between the markers; the pieces
    joined give the text back, and every piece has at least one character
    and at most [chunksize - 9]. *)
Theorem code_chunks_reassemble (text : string) (chunksize : Z) :
  9 < chunksize ->
  let step := Z.to_nat (chunksize - 9) in
  exists pieces,
    _yield_code_chunks text chunksize =
      Returned ((fun p => "```py" +:+ Py.nl +:+ p +:+ "```") <$> pieces) /\
    Py.join "" pieces = text /\
    Forall (fun p => (1 <= String.length p <= step)%nat) pieces.
Proof.
  intros Hsize step.
  exists ((fun k => Py.slice (k * step) (k * step + step) text)
            <$> seq 0 ((String.length text + step - 1) / step)%nat).
  assert (Hstep : (0 < step)%nat) by (unfold step; lia).
  split; [|split].
  - unfold _yield_code_chunks.
    change (Z.of_nat (String.length code_blocker) - 2) with 9. fold step.
    destruct (Z.eqb_spec (chunksize - 9) 0); [lia|].
    destruct (Z.ltb_spec (chunksize - 9) 0); [lia|].
    unfold Py.range_step. by rewrite <- !list_fmap_compose.
  - apply slices_join.
    destruct (String.length text) as [|n] eqn:Hn; [lia|].
    pose proof (range_step_ceiling (S n) step ltac:(lia) Hstep) as [_ Hceil]. lia.
  - apply Forall_fmap, Forall_forall. intros k Hk%elem_of_seq. cbn [compose].
    rewrite length_slice.
    destruct (String.length text) as [|n] eqn:Hn.
    { replace ((0 + step - 1) / step)%nat with 0%nat in Hk; [lia|].
      symmetry. apply Nat.div_small. lia. }
    pose proof (range_step_ceiling (S n) step ltac:(lia) Hstep) as [Hlow _].
    cbv zeta in Hlow. set (c := ((S n + step - 1) / step)%nat) in *.
    assert (Hk' : (k * step <= step * (c - 1))%nat) by (apply Nat.le_trans with (step * k)%nat; [lia|apply Nat.mul_le_mono_l; lia]).
    lia.
Qed.

Lemma code_chunks_reassemble_witness :
  exists pieces,
    _yield_code_chunks "hello world" 13 =
      Returned ((fun p => "```py" +:+ Py.nl +:+ p +:+ "```") <$> pieces) /\
    Py.join "" pieces = "hello world" /\
    Forall (fun p => (1 <= String.length p <= 4)%nat) pieces.
Proof. apply (code_chunks_reassemble "hello world" 13). lia. Defined.

(** X2. The degenerate sizes: a chunk size equal to the nine characters of
    the markers makes [range] raise [ValueError], whatever the text; a
    smaller one gives no chunk at all; and the empty text gives no chunk for
    every size but nine. *)
Theorem code_chunks_degenerate (text : string) (chunksize : Z) :
  (chunksize = 9 -> _yield_code_chunks text chunksize = Raised ValueError) /\
  (chunksize < 9 -> _yield_code_chunks text chunksize = Returned []) /\
  (chunksize <> 9 -> _yield_code_chunks "" chunksize = Returned []).
Proof.
  unfold _yield_code_chunks.
  change (Z.of_nat (String.length code_blocker) - 2) with 9.
  split; [|split].
  - by intros ->.
  - intros Hlt. destruct (Z.eqb_spec (chunksize - 9) 0); [lia|].
    by destruct (Z.ltb_spec (chunksize - 9) 0); [|lia].
  - intros Hne. destruct (Z.eqb_spec (chunksize - 9) 0); [lia|].
    destruct (Z.ltb_spec (chunksize - 9) 0); [done|].
    unfold Py.range_step. simpl String.length.
    replace ((0 + Z.to_nat (chunksize - 9) - 1) / Z.to_nat (chunksize - 9))%nat with 0%nat;
      [done|].
    symmetry. apply Nat.div_small. lia.
Qed.

Lemma code_chunks_degenerate_witness :
  _yield_code_chunks "hello" 9 = Raised ValueError /\
  _yield_code_chunks "hello" 8 = Returned [] /\
  _yield_code_chunks "" 2000 = Returned [].
Proof.
  destruct (code_chunks_degenerate "hello" 9) as (H9 & _ & _).
  destruct (code_chunks_degenerate "hello" 8) as (_ & H8 & _).
  destruct (code_chunks_degenerate "hello" 2000) as (_ & _ & H0).
  split; [apply H9; reflexivity|]. split; [apply H8; lia|apply H0; lia].
Defined.

(** ** [release_error]: the empty traceback, the state and the fetch *)

(** X3. [release_error] of the empty traceback, with the network up, ends
    with the [IndexError] of [code_chunks.pop(0)]: the error and the warning
    are logged and a partial webhook is fetched, but no message is sent. *)
Theorem release_error_empty_traceback (packet : TracebackData) (w : World) :
  network_up w ->
  exists w',
    release_error "" packet w = (w', Raised IndexError) /\
    requests w' =
      requests w ++ (if error_webhook_partial (manager w) then [WebhookFetch] else []) /\
    log w' =
      log w ++ [(utcnow w, Error_releasing (exception packet))]
            ++ unknown_guild_warning (bot (manager w)) packet (utcnow w) /\
    error_webhook_partial (manager w') = false.
Proof.
  intros Hup. unfold release_error. rewrite bind_unfold, emit_eq.
  set (w0 := set_log _ w).
  assert (Hup0 : network_up w0) by done.
  destruct (fetch_if_partial_up w0 Hup0) as (w1 & Hw1 & Hr1 & Hl1 & Hp1 & Hs1 & Hup1).
  rewrite (bind_returned _ _ _ _ _ Hw1), bind_unfold. cbn [get_self].
  assert (Hb : bot (manager w1) = bot (manager w)) by (destruct Hs1; done).
  rewrite Hb.
  assert (Hguild : exists w2,
    (match get_guild (bot (manager w)) (guild packet) with
     | Some _ => mret ()
     | None => emit (Warning_unknown_guild (guild packet))
     end) w1 = (w2, Returned ()) /\
    requests w2 = requests w1 /\
    log w2 = log w1 ++ unknown_guild_warning (bot (manager w)) packet (utcnow w) /\
    manager w2 = manager w1 /\ network_up w2).
  { unfold unknown_guild_warning. destruct (get_guild _ (guild packet)).
    - exists w1. rewrite app_nil_r. repeat split; done.
    - eexists. split; [apply emit_eq|]. destruct Hs1 as [_ _ _ _ _ Hnow1 _]. simpl in *.
      repeat split; try done. by rewrite Hnow1. }
  destruct Hguild as (w2 & Hw2 & Hr2 & Hl2 & Hm2 & Hup2).
  rewrite (bind_returned _ _ _ _ _ Hw2).
  assert (Hp2 : error_webhook_partial (manager w2) = false) by congruence.
  rewrite (bind_returned _ _ _ _ _ (fetch_if_partial_full w2 Hp2)).
  exists w2. split; [reflexivity|]. split; [by rewrite Hr2, Hr1|].
  split; [|done]. rewrite Hl2, Hl1. simpl. by rewrite <- app_assoc.
Qed.

Lemma release_error_empty_traceback_witness :
  exists w',
    release_error "" Sample.stray_packet (Sample.world0 0 []) = (w', Raised IndexError) /\
    requests w' = [WebhookFetch].
Proof.
  destruct (release_error_empty_traceback Sample.stray_packet (Sample.world0 0 []))
    as (w' & Hrun & Hreq & _); [constructor|].
  exists w'. split; [exact Hrun|exact Hreq].
Defined.

(** X4. Whatever the network does and whether it returns or raises,
    [release_error] leaves [errors], [_most_recent], the cooldown, the bot,
    the settings, the clock and the working directory as they are. *)
Theorem release_error_leaves_the_state (traceback : string) (packet : TracebackData)
    (w : World) :
  errors (manager (release_error traceback packet w).1) = errors (manager w) /\
  _most_recent (manager (release_error traceback packet w).1) = _most_recent (manager w) /\
  cooldown (manager (release_error traceback packet w).1) = cooldown (manager w) /\
  bot (manager (release_error traceback packet w).1) = bot (manager w) /\
  oce_settings (manager (release_error traceback packet w).1) = oce_settings (manager w) /\
  utcnow (release_error traceback packet w).1 = utcnow w /\
  getcwd (release_error traceback packet w).1 = getcwd w.
Proof. by destruct (preserves_release_error traceback packet w). Qed.

Lemma no_fetch_pure {A} (m : M A) :
  (forall w, requests (m w).1 = requests w /\
             error_webhook_partial (manager (m w).1) = error_webhook_partial (manager w)) ->
  no_fetch m.
Proof.
  intros Hm w Hp. destruct (Hm w) as [Hr Hq]. exists [].
  rewrite app_nil_r. split; [done|]. split; [by intros ?%elem_of_nil|congruence].
Qed.

Lemma no_fetch_bind {A B} (m : M A) (f : A -> M B) :
  no_fetch m -> (forall a, no_fetch (f a)) -> no_fetch (m ≫= f).
Proof.
  intros Hm Hf w Hp. rewrite bind_unfold.
  destruct (Hm w Hp) as (n1 & Hr1 & Hn1 & Hp1).
  destruct (m w) as [w1 [a|e]]; simpl in *; [|by exists n1].
  destruct (Hf a w1 Hp1) as (n2 & Hr2 & Hn2 & Hp2).
  exists (n1 ++ n2). split; [by rewrite Hr2, Hr1, app_assoc|].
  split; [|done]. rewrite elem_of_app. tauto.
Qed.

Lemma no_fetch_http (r : Request) : r <> WebhookFetch -> no_fetch (http r).
Proof.
  intros Hr w Hp. unfold http. destruct (network w) as [|[] rest]; simpl.
  - exists [r]. split; [done|]. split; [|done]. intros Heq%list_elem_of_singleton. by apply Hr.
  - exists [r]. split; [done|]. split; [|done]. intros Heq%list_elem_of_singleton. by apply Hr.
  - exists []. rewrite app_nil_r. split; [done|]. split; [by intros ?%elem_of_nil|done].
Qed.

Lemma no_fetch_fetch_if_partial : no_fetch fetch_if_partial.
Proof.
  intros w Hp. rewrite (fetch_if_partial_full w Hp). exists [].
  rewrite app_nil_r. split; [done|]. split; [by intros ?%elem_of_nil|done].
Qed.

Lemma no_fetch_send_chunks (b : Bot) (kwargs : SendKwargs) (code_chunks : list string) :
  forall embeds, no_fetch (send_chunks b kwargs code_chunks embeds).
Proof.
  induction code_chunks as [|entry rest IH]; intros embeds; cbn [send_chunks].
  - by apply no_fetch_pure.
  - destruct (List.length (embeds ++ [chunk_embed b entry]) =? 10)%nat; [|apply IH].
    apply no_fetch_bind; [by apply no_fetch_http|]. intros _. apply IH.
Qed.

(** The part of [release_error] that follows the first fetch. *)
Lemma no_fetch_after_first_fetch (traceback : string) (packet : TracebackData) :
  no_fetch
    (self ← get_self;
     _ ← match get_guild (bot self) (guild packet) with
         | Some _ => mret ()
         | None => emit (Warning_unknown_guild (guild packet))
         end;
     let embed := primary_embed (bot self) packet in
     let kwargs := send_kwargs (bot self) in
     _ ← fetch_if_partial;
     match _yield_code_chunks traceback 2000 with
     | Raised e => raise e
     | Returned [] => raise IndexError
     | Returned (first :: code_chunks) =>
         _ ← http (WebhookSend (set_description embed first) kwargs);
         embeds ← send_chunks (bot self) kwargs code_chunks [];
         match embeds with
         | [] => mret ()
         | _ => http (WebhookSendEmbeds embeds kwargs)
         end
     end).
Proof.
  apply no_fetch_bind; [by apply no_fetch_pure|intros self].
  apply no_fetch_bind.
  { destruct (get_guild _ _); by apply no_fetch_pure. }
  intros _. cbv zeta. apply no_fetch_bind; [apply no_fetch_fetch_if_partial|intros _].
  destruct (_yield_code_chunks traceback 2000) as [[|first rest]|e];
    try by apply no_fetch_pure.
  apply no_fetch_bind; [by apply no_fetch_http|intros _].
  apply no_fetch_bind; [apply no_fetch_send_chunks|intros embeds].
  destruct embeds; [by apply no_fetch_pure|by apply no_fetch_http].
Qed.

Lemma fetch_if_partial_returned (w w1 : World) :
  fetch_if_partial w = (w1, Returned ()) -> error_webhook_partial (manager w1) = false.
Proof.
  unfold fetch_if_partial. rewrite bind_unfold. cbn [get_self].
  destruct (error_webhook_partial (manager w)) eqn:Hp; [|by intros [= <-]].
  rewrite bind_unfold. destruct (http WebhookFetch w) as [w0 [[]|e]]; [|done].
  by intros [= <-].
Qed.

(** X5. The webhook is fetched once. Whatever the network does: when the
    webhook is not partial, [release_error] issues no fetch and leaves it
    so; and when [release_error] returns, the webhook is not partial, so the
    releases that follow issue no fetch. *)
Theorem release_error_fetches_once (traceback : string) (packet : TracebackData)
    (w : World) :
  (error_webhook_partial (manager w) = false ->
   exists new,
     requests (release_error traceback packet w).1 = requests w ++ new /\
     (WebhookFetch ∉ new) /\
     error_webhook_partial (manager (release_error traceback packet w).1) = false) /\
  ((release_error traceback packet w).2 = Returned () ->
   error_webhook_partial (manager (release_error traceback packet w).1) = false).
Proof.
  split.
  - revert w. change (no_fetch (release_error traceback packet)).
    unfold release_error.
    apply no_fetch_bind; [by apply no_fetch_pure|intros _].
    apply no_fetch_bind; [apply no_fetch_fetch_if_partial|intros _].
    apply no_fetch_after_first_fetch.
  - unfold release_error. rewrite bind_unfold, emit_eq, bind_unfold.
    destruct (fetch_if_partial (set_log _ w)) as [w1 [[]|e]] eqn:Hfetch; [|done].
    intros _. apply fetch_if_partial_returned in Hfetch.
    by destruct (no_fetch_after_first_fetch traceback packet w1 Hfetch) as (new & _ & _ & Hq).
Qed.

Lemma release_error_fetches_once_witness :
  error_webhook_partial
    (manager (release_error (exc_rendered Sample.boom) Sample.stray_packet
                (Sample.world0 0 [])).1) = false.
Proof.
  apply (release_error_fetches_once (exc_rendered Sample.boom) Sample.stray_packet
           (Sample.world0 0 [])).
  by vm_compute.
Defined.

(** ** What the calls log *)

Lemma quiet_pure {A} (m : M A) : (forall w, log (m w).1 = log w) -> quiet m.
Proof. intros Hm w. exists []. by rewrite Hm, app_nil_r. Qed.

Lemma quiet_bind {A B} (m : M A) (f : A -> M B) :
  quiet m -> (forall a, quiet (f a)) -> quiet (m ≫= f).
Proof.
  intros Hm Hf w. rewrite bind_unfold. destruct (Hm w) as (x1 & Hl1 & Hq1).
  destruct (m w) as [w1 [a|e]]; simpl in *; [|by exists x1].
  destruct (Hf a w1) as (x2 & Hl2 & Hq2).
  exists (x1 ++ x2). split; [by rewrite Hl2, Hl1, app_assoc|by apply Forall_app].
Qed.

Lemma quiet_emit (r : LogRecord) :
  (forall t, quiet_record (t, r)) -> quiet (emit r).
Proof. intros Hr w. exists [(utcnow w, r)]. split; [done|]. by constructor. Qed.

Lemma quiet_http (r : Request) : quiet (http r).
Proof. apply quiet_pure. intros w. unfold http. by destruct (network w) as [|[] ?]. Qed.

Lemma quiet_fetch_if_partial : quiet fetch_if_partial.
Proof.
  unfold fetch_if_partial. apply quiet_bind; [by apply quiet_pure|intros self].
  destruct (error_webhook_partial self); [|by apply quiet_pure].
  apply quiet_bind; [apply quiet_http|intros _].
  apply quiet_bind; [by apply quiet_pure|intros ?]. by apply quiet_pure.
Qed.

Lemma quiet_send_chunks (b : Bot) (kwargs : SendKwargs) (code_chunks : list string) :
  forall embeds, quiet (send_chunks b kwargs code_chunks embeds).
Proof.
  induction code_chunks as [|entry rest IH]; intros embeds; cbn [send_chunks].
  - by apply quiet_pure.
  - destruct (List.length (embeds ++ [chunk_embed b entry]) =? 10)%nat; [|apply IH].
    apply quiet_bind; [apply quiet_http|]. intros _. apply IH.
Qed.

(** A record logged first, then quiet ones. *)
Lemma log_after_emit {A} (r : LogRecord) (f : unit -> M A) (w : World) :
  quiet (f ()) ->
  exists extra,
    log ((emit r ≫= f) w).1 = log w ++ (utcnow w, r) :: extra /\
    Forall quiet_record extra.
Proof.
  intros Hf. rewrite bind_unfold, emit_eq.
  destruct (Hf (set_log (log w ++ [(utcnow w, r)]) w)) as (extra & Hl & Hq).
  exists extra. split; [|done]. rewrite Hl. simpl. by rewrite <- app_assoc.
Qed.

Lemma release_error_log (traceback : string) (packet : TracebackData) (w : World) :
  exists extra,
    log (release_error traceback packet w).1 =
      log w ++ (utcnow w, Error_releasing (exception packet)) :: extra /\
    Forall quiet_record extra.
Proof.
  unfold release_error. apply log_after_emit.
  apply quiet_bind; [apply quiet_fetch_if_partial|intros _].
  apply quiet_bind; [by apply quiet_pure|intros self].
  apply quiet_bind.
  { destruct (get_guild _ _); [by apply quiet_pure|by apply quiet_emit]. }
  intros _. apply quiet_bind; [apply quiet_fetch_if_partial|intros _].
  destruct (_yield_code_chunks traceback 2000) as [[|first rest]|e];
    try by apply quiet_pure.
  apply quiet_bind; [apply quiet_http|intros _].
  apply quiet_bind; [apply quiet_send_chunks|intros embeds].
  destruct embeds; [by apply quiet_pure|apply quiet_http].
Qed.

Lemma released_app (l1 l2 : list (Z * LogRecord)) :
  released (l1 ++ l2) = released l1 ++ released l2.
Proof. apply omap_app. Qed.

Lemma waiting_times_app (l1 l2 : list (Z * LogRecord)) :
  waiting_times (l1 ++ l2) = waiting_times l1 ++ waiting_times l2.
Proof. apply omap_app. Qed.

Lemma quiet_records_silent (extra : list (Z * LogRecord)) :
  Forall quiet_record extra -> released extra = [] /\ waiting_times extra = [].
Proof.
  induction 1 as [|[t r] extra Hr _ [IH1 IH2]]; [done|].
  unfold released, waiting_times in *. simpl.
  destruct r; simpl in *; try done.
Qed.

(** What [mark_and_release] does to the cursor, the clock and the log. *)
Lemma mark_and_release_effect (key : string) (packet : TracebackData) (w : World) :
  utcnow (mark_and_release key packet w).1 = utcnow w /\
  _most_recent (manager (mark_and_release key packet w).1) = Some (utcnow w) /\
  cooldown (manager (mark_and_release key packet w).1) = cooldown (manager w) /\
  released (log (mark_and_release key packet w).1) =
    released (log w) ++ [exception packet] /\
  waiting_times (log (mark_and_release key packet w).1) = waiting_times (log w).
Proof.
  rewrite mark_and_release_eq.
  set (w0 := set_manager _ w).
  destruct (preserves_release_error key packet w0) as [_ Hmr _ Hcd _ Hnow _].
  destruct (release_error_log key packet w0) as (extra & Hlog & Hq).
  destruct (quiet_records_silent extra Hq) as [Hrel Hwait].
  rewrite Hmr, Hcd, Hnow, Hlog.
  change ((utcnow w0, Error_releasing (exception packet)) :: extra)
    with ([(utcnow w0, Error_releasing (exception packet))] ++ extra).
  rewrite !released_app, !waiting_times_app, Hrel, Hwait, !app_nil_r.
  repeat split; done.
Qed.

(** ** The delivery scheduler: when a call releases its error *)

Lemma decide_release_after_record (error : BaseException) (ctx : OriginCtx) (w : World)
    (packet : TracebackData) :
  decide_release (manager (add_error_record error ctx w).1) packet =
  decide_release (manager w) packet.
Proof. reflexivity. Qed.

Lemma add_error_schedule (error : BaseException) (ctx : OriginCtx) (item : option Item)
    (w : World) :
  let packet := make_packet error ctx (utcnow w) in
  let w' := (add_error error ctx item w).1 in
  utcnow w' = utcnow w + delay_of (manager w) packet /\
  _most_recent (manager w') = Some (utcnow w + delay_of (manager w) packet) /\
  released (log w') = released (log w) ++ [error] /\
  waiting_times (log w') =
    waiting_times (log w) ++
    match decide_release (manager w) packet with
    | ReleaseNow => []
    | WaitThenRelease time_between => [(utcnow w, time_between)]
    end.
Proof.
  intros packet w'. unfold w', delay_of.
  rewrite add_error_eq, locked_section_eq, decide_release_after_record.
  fold packet. set (key := traceback_string error (getcwd w)).
  set (w1 := (add_error_record error ctx w).1).
  assert (Hrel1 : released (log w1) = released (log w)).
  { unfold w1. rewrite add_error_record_eq. simpl. rewrite released_app. simpl.
    by rewrite app_nil_r. }
  assert (Hwait1 : waiting_times (log w1) = waiting_times (log w)).
  { unfold w1. rewrite add_error_record_eq. simpl. rewrite waiting_times_app. simpl.
    by rewrite app_nil_r. }
  assert (Hnow1 : utcnow w1 = utcnow w) by reflexivity.
  assert (Hexc : exception packet = error) by apply exception_make_packet.
  destruct (decide_release (manager w) packet) as [|d].
  - destruct (mark_and_release_effect key packet w1) as (Hn & Hm & _ & Hr & Hw).
    rewrite Hn, Hm, Hr, Hw, Hrel1, Hwait1, Hnow1, Hexc, Z.add_0_r, app_nil_r. done.
  - set (w2 := set_utcnow _ _).
    destruct (mark_and_release_effect key packet w2) as (Hn & Hm & _ & Hr & Hw).
    rewrite Hn, Hm, Hr, Hw, Hexc. unfold w2.
    cbn [log utcnow set_utcnow set_log].
    rewrite released_app, waiting_times_app, Hrel1, Hwait1, Hnow1.
    change (released [(utcnow w, Debug_waiting d)]) with (@nil BaseException).
    change (waiting_times [(utcnow w, Debug_waiting d)]) with [(utcnow w, d)].
    by rewrite app_nil_r.
Qed.

(** X6. A call of [add_error] that finds no release recorded, or a packet
    whose time exceeds the time of the last release by more than the
    cooldown, does not wait: [release_error] is entered at the time of the
    call, no wait is logged, and [_most_recent] becomes that time, whatever
    the network does. *)
Theorem add_error_releases_at_once
    (error : BaseException) (ctx : OriginCtx) (item : option Item) (w : World) :
  (_most_recent (manager w) = None \/
   exists last, _most_recent (manager w) = Some last /\
                cooldown (manager w) < packet_time ctx (utcnow w) - last) ->
  let w' := (add_error error ctx item w).1 in
  utcnow w' = utcnow w /\
  _most_recent (manager w') = Some (utcnow w) /\
  released (log w') = released (log w) ++ [error] /\
  waiting_times (log w') = waiting_times (log w).
Proof.
  intros Hnow w'.
  assert (Hd : decide_release (manager w) (make_packet error ctx (utcnow w)) = ReleaseNow).
  { unfold decide_release. destruct Hnow as [->|(last & -> & Hlt)]; [done|].
    replace (time (make_packet error ctx (utcnow w))) with (packet_time ctx (utcnow w))
      by (by destruct ctx).
    by destruct (Z.ltb_spec (cooldown (manager w)) (packet_time ctx (utcnow w) - last));
      [|lia]. }
  destruct (add_error_schedule error ctx item w) as (Hn & Hm & Hr & Hw).
  unfold delay_of in *. rewrite Hd in *. rewrite Z.add_0_r in *. rewrite app_nil_r in Hw.
  done.
Qed.

Lemma add_error_releases_at_once_witness :
  utcnow (add_error Sample.boom NoCtx None (Sample.world0 7 [])).1 = 7 /\
  _most_recent (manager (add_error Sample.boom NoCtx None (Sample.world0 7 [])).1) = Some 7 /\
  released (log (add_error Sample.boom NoCtx None (Sample.world0 7 [])).1) = [Sample.boom] /\
  waiting_times (log (add_error Sample.boom NoCtx None (Sample.world0 7 [])).1) = [].
Proof.
  apply (add_error_releases_at_once Sample.boom NoCtx None (Sample.world0 7 [])).
  left. reflexivity.
Defined.

(** X7. Every call of [add_error] enters [release_error] once, after a
    sleep that is never negative and never longer than the cooldown; when
    the call is over, whether it returned or raised, the clock has advanced
    by that sleep and [_most_recent] is the time of the release. A packet
    older than the last release is released without any sleep. *)
Theorem add_error_delay_bounded
    (error : BaseException) (ctx : OriginCtx) (item : option Item) (w : World) :
  let packet := make_packet error ctx (utcnow w) in
  let w' := (add_error error ctx item w).1 in
  0 <= utcnow w' - utcnow w <= Z.max 0 (cooldown (manager w)) /\
  _most_recent (manager w') = Some (utcnow w') /\
  released (log w') = released (log w) ++ [error] /\
  (forall last, _most_recent (manager w) = Some last ->
     time packet - last <= cooldown (manager w) ->
     utcnow w' = utcnow w + Z.max 0 (time packet - last)) /\
  (forall last, _most_recent (manager w) = Some last ->
     time packet <= last -> 0 <= cooldown (manager w) -> utcnow w' = utcnow w).
Proof.
  intros packet w'.
  destruct (add_error_schedule error ctx item w) as (Hn & Hm & Hr & _).
  fold packet w' in Hn, Hm, Hr.
  assert (Hbound : 0 <= delay_of (manager w) packet <= Z.max 0 (cooldown (manager w))).
  { unfold delay_of, decide_release. destruct (_most_recent (manager w)) as [last|]; [|lia].
    destruct (Z.ltb_spec (cooldown (manager w)) (time packet - last)); lia. }
  assert (Hwait : forall last, _most_recent (manager w) = Some last ->
            time packet - last <= cooldown (manager w) ->
            delay_of (manager w) packet = Z.max 0 (time packet - last)).
  { intros last Hlast Hle. unfold delay_of, decide_release. rewrite Hlast.
    by destruct (Z.ltb_spec (cooldown (manager w)) (time packet - last)); [lia|]. }
  split; [lia|]. split; [by rewrite Hm, Hn|]. split; [done|]. split.
  - intros last Hlast Hle. by rewrite Hn, (Hwait last).
  - intros last Hlast Hold Hcd. rewrite Hn, (Hwait last) by (done || lia). lia.
Qed.

Lemma add_error_delay_bounded_witness :
  utcnow (add_error Sample.crash NoCtx None (set_utcnow 1000000 Sample.after_first)).1
    = 1000000 + Z.max 0 (1000000 - 0).
Proof.
  destruct (add_error_delay_bounded Sample.crash NoCtx None
              (set_utcnow 1000000 Sample.after_first)) as (_ & _ & _ & Hwait & _).
  apply (Hwait 0); [reflexivity|]. by vm_compute.
Defined.

(** ** Every error is released once, in the order of the calls *)

Lemma step_released (s s' : System) (ev : Event) :
  step s ev s' ->
  released (log (world s')) ++ pending s' =
    released (log (world s)) ++ pending s ++ ((fun kp => exception kp.2) <$> inserted s ev) /\
  (List.length (finished s') + List.length (pending s') =
   List.length (finished s) + List.length (pending s) + List.length (inserted s ev))%nat.
Proof.
  intros Hstep. destruct Hstep as
    [s d Hd | s error ctx it w' key packet Hrec
    | s key packet rest w' r Hs Hw Hdec Hrel
    | s key packet rest tb w' r Hs Hw Hdec Hemit
    | s wake key packet w' r Hs Hwake Hrel];
    unfold pending; cbn [world sleeper waiters finished inserted].
  - rewrite fmap_nil, !app_nil_r. split; [done|cbn [List.length]; lia].
  - rewrite add_error_record_eq in Hrec. injection Hrec as <- <- <-.
    cbn [log set_manager set_log]. rewrite released_app, fmap_app.
    change (released [(utcnow (world s), Info_adding_error (exc_str error))])
      with (@nil BaseException).
    rewrite app_nil_r. split; [by rewrite <- !app_assoc|].
    repeat (rewrite ?length_app, ?length_fmap; cbn [List.length]). lia.
  - destruct (mark_and_release_effect key packet (world s)) as (_ & _ & _ & Hr & _).
    rewrite Hrel in Hr. cbn [fst] in Hr. rewrite Hr, Hs, Hw, fmap_cons, fmap_nil.
    cbn [app snd]. rewrite app_nil_r. split; [by rewrite <- app_assoc|].
    repeat (rewrite ?length_app, ?length_fmap; cbn [List.length]). lia.
  - rewrite emit_eq in Hemit. injection Hemit as <- _.
    cbn [log set_log]. rewrite released_app, Hs, Hw, fmap_nil.
    change (released [(utcnow (world s), Debug_waiting tb)]) with (@nil BaseException).
    rewrite !app_nil_r. split; [done|].
    repeat (rewrite ?length_app, ?length_fmap; cbn [List.length app]). lia.
  - destruct (mark_and_release_effect key packet (world s)) as (_ & _ & _ & Hr & _).
    rewrite Hrel in Hr. cbn [fst] in Hr. rewrite Hr, Hs, fmap_nil.
    cbn [app]. rewrite app_nil_r. split; [by rewrite <- app_assoc|].
    repeat (rewrite ?length_app, ?length_fmap; cbn [List.length]). lia.
Qed.

Lemma run_released (s s' : System) (evs : list Event) (hist : list (string * TracebackData)) :
  run s evs hist s' ->
  released (log (world s')) ++ pending s' =
    released (log (world s)) ++ pending s ++ ((fun kp => exception kp.2) <$> hist) /\
  (List.length (finished s') + List.length (pending s') =
   List.length (finished s) + List.length (pending s) + List.length hist)%nat.
Proof.
  induction 1 as [s|s ev s1 evs hist s' Hstep Hrun [IH1 IH2]].
  - simpl. rewrite !app_nil_r. split; [done|lia].
  - destruct (step_released _ _ _ Hstep) as [H1 H2].
    rewrite fmap_app, length_app. split; [|lia].
    rewrite IH1, app_assoc, H1. by rewrite <- !app_assoc.
Qed.

(** X8. Along every run, the exceptions released so far followed by those
    of the calls still pending (the sleeper, then the waiters) are the ones
    released and pending at the start followed by those of the calls made,
    in the order of the calls: no call is dropped, released twice or
    overtaken. The calls that are over and the pending ones add up to the
    calls made. *)
Theorem errors_released_in_call_order
    (s s' : System) (evs : list Event) (hist : list (string * TracebackData)) :
  run s evs hist s' ->
  released (log (world s')) ++ pending s' =
    released (log (world s)) ++ pending s ++ ((fun kp => exception kp.2) <$> hist) /\
  (List.length (finished s') + List.length (pending s') =
   List.length (finished s) + List.length (pending s) + List.length hist)%nat /\
  (pending s = [] -> released (log (world s)) = [] -> pending s' = [] ->
   released (log (world s')) = (fun kp => exception kp.2) <$> hist).
Proof.
  intros Hrun. destruct (run_released _ _ _ _ Hrun) as [H1 H2].
  split; [done|]. split; [done|].
  intros Hp Hr Hp'. rewrite Hp, Hr, Hp' in H1. by rewrite app_nil_r in H1.
Qed.

Lemma three_calls_run :
  exists hist, run Sample.system0 Sample.three_calls hist after_three_calls.
Proof. apply execs_sound. vm_compute. reflexivity. Qed.

Lemma errors_released_in_call_order_witness :
  exists hist,
    run Sample.system0 Sample.three_calls hist after_three_calls /\
    released (log (world after_three_calls)) ++ pending after_three_calls
      = (fun kp => exception kp.2) <$> hist /\
    released (log (world after_three_calls)) = [Sample.boom; Sample.crash] /\
    pending after_three_calls = [Sample.boom].
Proof.
  destruct three_calls_run as [hist Hrun].
  destruct (errors_released_in_call_order _ _ _ _ Hrun) as (Hrel & _ & _).
  exists hist. split; [exact Hrun|]. split; [exact Hrel|].
  clear. vm_compute. split; reflexivity.
Defined.

(** ** The [item] argument of [add_error] *)

Lemma item_make_packet (error : BaseException) (ctx : OriginCtx) (now : Z) :
  item (make_packet error ctx now) = None.
Proof. by destruct ctx. Qed.

Lemma run_items (s s' : System) (evs : list Event) (hist : list (string * TracebackData)) :
  run s evs hist s' ->
  (forall k, packets_of k (errors (manager (world s'))) =
             packets_of k (errors (manager (world s))) ++ inserted_under k hist) /\
  Forall (fun kp => item kp.2 = None) hist.
Proof.
  induction 1 as [s|s ev s1 evs hist s' Hstep Hrun [IHk IHi]].
  - split; [|done]. intros k. by rewrite app_nil_r.
  - destruct (step_errors _ _ _ Hstep) as [_ Hk1]. split.
    + intros k. by rewrite IHk, Hk1, inserted_under_app, <- app_assoc.
    + apply Forall_app. split; [|done].
      destruct ev; cbn [inserted]; try constructor; [|constructor].
      apply item_make_packet.
Qed.

(** X10. [add_error] does not read its [item] argument: the call behaves the
    same for every item, no packet it stores holds an item, and so, along
    every run from a state whose packets hold none, no stored packet holds
    one and the title of its report is never the one of a UI item. *)
Theorem item_is_never_recorded
    (s s' : System) (evs : list Event) (hist : list (string * TracebackData)) :
  run s evs hist s' ->
  (forall k p, p ∈ packets_of k (errors (manager (world s))) -> item p = None) ->
  (forall error ctx it w, add_error error ctx it w = add_error error ctx None w) /\
  (forall k p, p ∈ packets_of k (errors (manager (world s'))) ->
     item p = None /\
     display (bot (manager (world s'))) p =
       match command p with
       | Some c => "in command " +:+ dquote +:+ qualified_name c +:+ dquote
       | None => "in no command (" +:+ class_name (bot (manager (world s'))) +:+ ")"
       end).
Proof.
  intros Hrun Hinit. split; [by intros; unfold add_error|]. intros k p Hin.
  destruct (run_items _ _ _ _ Hrun) as [Hk Hitems].
  assert (Hitem : item p = None).
  { rewrite Hk, elem_of_app in Hin. destruct Hin as [Hin|Hin]; [by eapply Hinit|].
    unfold inserted_under in Hin. apply list_elem_of_fmap in Hin as ([k' p'] & -> & Hin).
    apply list_elem_of_filter in Hin as [_ Hin].
    rewrite Forall_forall in Hitems. by apply (Hitems _ Hin). }
  split; [done|]. unfold display. by rewrite Hitem.
Qed.

Lemma item_is_never_recorded_witness :
  exists hist,
    run Sample.system0 Sample.three_calls hist after_three_calls /\
    forall k p, p ∈ packets_of k (errors (manager (world after_three_calls))) ->
                item p = None.
Proof.
  destruct three_calls_run as [hist Hrun].
  exists hist. split; [exact Hrun|]. intros k p Hin.
  destruct (item_is_never_recorded _ _ _ _ Hrun) as [_ Hitems].
  - intros k' p' Hin'. unfold packets_of in Hin'.
    change (errors (manager (world Sample.system0)))
      with (∅ : gmap string (list TracebackData)) in Hin'.
    rewrite lookup_empty in Hin'. by apply elem_of_nil in Hin'.
  - by apply (Hitems k p).
Defined.

(** ** The command-error bridge: the other branches *)

(** X11. A command error that no local handler takes, that is not ignored
    and that is not a wrapped invocation error is not escalated: its text
    is sent to the context and nothing else happens. The manager, the log
    and the clock stay as they are; when the request is refused its
    exception reaches the caller and nothing is sent. *)
Theorem plain_error_is_sent_to_the_context
    (ctx : Context) (error : BaseException) (w : World) :
  check_for_local_error_handlers (oce_settings (manager w))
    && has_local_error_handler ctx = false ->
  isinstance_any error (ignored_errors (oce_settings (manager w))) = false ->
  isinstance error CommandInvokeError_t = false ->
  let w' := (bot_command_error ctx error w).1 in
  let outcome := (bot_command_error ctx error w).2 in
  manager w' = manager w /\ log w' = log w /\ utcnow w' = utcnow w /\
  match network w with
  | false :: _ => outcome = Raised HTTPException /\ requests w' = requests w
  | _ => outcome = Returned () /\
         requests w' = requests w ++ [ContextSend ctx (exc_str error)]
  end.
Proof.
  intros Hlocal Hign Hinv w' outcome. unfold w', outcome, bot_command_error.
  rewrite bind_unfold. cbn [get_self]. rewrite Hlocal, Hign, Hinv.
  unfold http. by destruct (network w) as [|[] rest].
Qed.

Lemma plain_error_is_sent_to_the_context_witness :
  requests (bot_command_error Sample.ctx_ping Sample.crash (Sample.world0 0 [])).1
    = [ContextSend Sample.ctx_ping "division by zero"] /\
  manager (bot_command_error Sample.ctx_ping Sample.crash (Sample.world0 0 [])).1
    = Sample.manager0.
Proof.
  destruct (plain_error_is_sent_to_the_context Sample.ctx_ping Sample.crash
              (Sample.world0 0 [])) as (Hm & _ & _ & _ & Hreq); try reflexivity.
  split; [exact Hreq|exact Hm].
Defined.

(** X12. With [check_for_local_error_handlers] on, an [on_command_error]
    listener of the bot, an error handler of the command or an error handler
    of the cog makes [bot_command_error] return at once for every error,
    ignored or not, wrapped or not: the world is unchanged. With the check
    off the handlers are not looked at: for every context, with handlers or
    without, an error that is not ignored is escalated as its original when
    it is a wrapped invocation error, and sent to the context otherwise. *)
Theorem local_handler_takes_every_error (ctx : Context) (error : BaseException) (w : World) :
  (check_for_local_error_handlers (oce_settings (manager w)) = true ->
   (non_empty (extra_events (ctx_bot ctx) !! "on_command_error") = true \/
    (exists c, ctx_command ctx = Some c /\ command_has_error_handler c = true) \/
    (exists c, ctx_cog ctx = Some c /\ cog_has_error_handler c = true)) ->
   bot_command_error ctx error w = (w, Returned ())) /\
  (check_for_local_error_handlers (oce_settings (manager w)) = false ->
   isinstance_any error (ignored_errors (oce_settings (manager w))) = false ->
   (forall original,
      isinstance error CommandInvokeError_t = true ->
      exc_original error = Some original ->
      bot_command_error ctx error w = add_error original (CommandCtx ctx) None w) /\
   (isinstance error CommandInvokeError_t = false ->
    bot_command_error ctx error w = http (ContextSend ctx (exc_str error)) w)).
Proof.
  split.
  - intros Hcheck Hhandler. unfold bot_command_error. rewrite bind_unfold. cbn [get_self].
    rewrite Hcheck. cbn [andb]. unfold has_local_error_handler.
    destruct Hhandler as [->|[(c & -> & ->)|(c & -> & ->)]]; cbn [orb]; try done;
      rewrite ?orb_true_r; done.
  - intros Hcheck Hign. split.
    + intros original Hinv Horig. unfold bot_command_error. rewrite bind_unfold.
      cbn [get_self]. by rewrite Hcheck, Hign, Hinv, Horig.
    + intros Hinv. unfold bot_command_error. rewrite bind_unfold.
      cbn [get_self]. by rewrite Hcheck, Hign, Hinv.
Qed.

Lemma local_handler_takes_every_error_witness :
  bot_command_error Sample.ctx_guarded Sample.crash (Sample.world0 0 [])
    = (Sample.world0 0 [], Returned ()) /\
  bot_command_error Sample.ctx_guarded Sample.wrapped
    (set_manager manager_unchecked (Sample.world0 0 []))
    = add_error Sample.boom (CommandCtx Sample.ctx_guarded) None
        (set_manager manager_unchecked (Sample.world0 0 [])) /\
  bot_command_error Sample.ctx_guarded Sample.crash
    (set_manager manager_unchecked (Sample.world0 0 []))
    = http (ContextSend Sample.ctx_guarded "division by zero")
        (set_manager manager_unchecked (Sample.world0 0 [])).
Proof.
  split; [|split].
  - apply (local_handler_takes_every_error Sample.ctx_guarded Sample.crash (Sample.world0 0 [])); [reflexivity|].
    right. left. exists Sample.guarded_ping. split; reflexivity.
  - apply (local_handler_takes_every_error Sample.ctx_guarded Sample.wrapped
             (set_manager manager_unchecked (Sample.world0 0 []))); reflexivity.
  - apply (local_handler_takes_every_error Sample.ctx_guarded Sample.crash
             (set_manager manager_unchecked (Sample.world0 0 []))); reflexivity.
Defined.

(** X13. The ignored classes are matched with [isinstance]: an error of a
    subclass of an ignored class is ignored too, and leaves the world
    unchanged. With the default classes a wrapped invocation error of class
    [CommandInvokeError] is never ignored. *)
Theorem subclasses_of_ignored_classes_are_ignored
    (ctx : Context) (error : BaseException) (w : World) (c : ExcType) :
  c ∈ ignored_errors (oce_settings (manager w)) ->
  issubclass (exc_type error) c = true ->
  bot_command_error ctx error w = (w, Returned ()) /\
  (exc_type error = CommandInvokeError_t ->
   isinstance_any error (ignored_errors (default_settings true)) = false).
Proof.
  intros Hin Hsub. split.
  - unfold bot_command_error. rewrite bind_unfold. cbn [get_self].
    destruct (_ && _); [done|].
    assert (Hany : isinstance_any error (ignored_errors (oce_settings (manager w))) = true).
    { unfold isinstance_any. apply existsb_exists. exists c.
      split; [by apply list_elem_of_In|done]. }
    by rewrite Hany.
  - intros Ht. unfold isinstance_any, isinstance. by rewrite Ht.
Qed.

Lemma subclasses_of_ignored_classes_are_ignored_witness :
  bot_command_error Sample.ctx_ping Sample.not_owner
    (set_manager (init Sample.the_bot
                    {| hijack := true; ignored_errors := [CheckFailure_t];
                       check_for_local_error_handlers := true |} default_cooldown)
       (Sample.world0 0 []))
  = (set_manager (init Sample.the_bot
                    {| hijack := true; ignored_errors := [CheckFailure_t];
                       check_for_local_error_handlers := true |} default_cooldown)
       (Sample.world0 0 []), Returned ()).
Proof.
  eapply (subclasses_of_ignored_classes_are_ignored Sample.ctx_ping Sample.not_owner _
            CheckFailure_t); [by left|reflexivity].
Defined.

(** ** The metadata: the fallback of lines 215-216 and the resolved guild *)

(** X14. The [<Unknown User>] fallback of lines 215-216 never fires: for
    every bot and packet the metadata is the dictionary that lines 188-213
    build. An author whose id is not zero always has an entry by then, and
    an author whose id is zero or absent gets none. *)
Theorem unknown_user_fallback_never_fires (b : Bot) (packet : TracebackData) :
  metadata b packet =
    match get_guild b (guild packet) with
    | Some g =>
        metadata_in_guild b g packet
          (dict_set "guild" (guild_name g +:+ " (" +:+ Py.str_int (guild_id g) +:+ ")")
             (metadata_author packet [("time", format_dt (time packet))]))
    | None => metadata_author packet [("time", format_dt (time packet))]
    end /\
  (Py.truthy_int (author packet) = None -> dict_get "author" (metadata b packet) = None).
Proof.
  unfold metadata, metadata_unknown_author, metadata_in_guild, metadata_author.
  destruct (get_guild b (guild packet)) as [g|];
    destruct (Py.truthy_int (author packet)) as [a|]; cbv zeta.
  - destruct (Py.truthy_int (channel packet)) as [cid|];
      [destruct (get_channel g cid)|];
      (destruct (get_member g a) as [m|]; [|destruct (get_user b a) as [m|]]);
      try (destruct (user_str m)); split; (reflexivity || discriminate).
  - destruct (Py.truthy_int (channel packet)) as [cid|];
      [destruct (get_channel g cid)|]; split; reflexivity.
  - split; (reflexivity || discriminate).
  - split; reflexivity.
Qed.

(** X15. The metadata of a packet whose guild is resolved: the entries come
    in the order time, author, guild, channel. The author is the member of
    the guild with that id, else the user the bot knows, else the raw
    mention; the channel has an entry only when the guild has a channel with
    that id. *)
Theorem metadata_in_known_guild (b : Bot) (packet : TracebackData) (g : Guild) :
  get_guild b (guild packet) = Some g ->
  metadata b packet =
    ("time", format_dt (time packet)) ::
    match Py.truthy_int (author packet) with
    | Some a =>
        [("author",
          match get_member g a with
          | Some m => describe_user m
          | None =>
              match get_user b a with
              | Some u => describe_user u
              | None => raw_mention a
              end
          end)]
    | None => []
    end ++
    ("guild", guild_name g +:+ " (" +:+ Py.str_int (guild_id g) +:+ ")") ::
    match Py.truthy_int (channel packet) with
    | Some cid =>
        match get_channel g cid with
        | Some ch => [("channel", describe_channel ch)]
        | None => []
        end
    | None => []
    end.
Proof.
  intros Hg.
  unfold metadata, metadata_unknown_author, metadata_in_guild, metadata_author,
    describe_user, describe_channel, raw_mention.
  rewrite Hg. cbv zeta.
  destruct (Py.truthy_int (author packet)) as [a|];
    (destruct (Py.truthy_int (channel packet)) as [cid|];
      [destruct (get_channel g cid)|]);
    try (destruct (get_member g a) as [m|]; [|destruct (get_user b a) as [m|]]);
    try (destruct (user_str m)); reflexivity.
Qed.

Lemma metadata_in_known_guild_witness :
  metadata Sample.the_bot
    (make_packet Sample.boom (CommandCtx Sample.ctx_ping) 0) =
  [("time", "<t:0>"); ("author", "alice - <@3> (3)"); ("guild", "Duck Pond (1)");
   ("channel", "general - <#2> - (2)")].
Proof.
  rewrite (metadata_in_known_guild Sample.the_bot _ Sample.pond); reflexivity.
Defined.

(** ** [bot_on_error] *)

(** X16. [bot_on_error] with no exception in flight changes nothing; with
    one, it records a packet that holds the time of the clock and the
    exception and nothing else, under the traceback string of the exception,
    and sends it through [release_error] once. *)
Theorem bot_on_error_records_the_exception_in_flight (w : World) :
  bot_on_error None w = (w, Returned ()) /\
  forall error,
    let key := traceback_string error (getcwd w) in
    let w' := (bot_on_error (Some error) w).1 in
    packets_of key (errors (manager w')) =
      packets_of key (errors (manager w)) ++
      [{| time := utcnow w; exception := error; author := None; guild := None;
          channel := None; command := None; item := None |}] /\
    (forall k, k <> key ->
       packets_of k (errors (manager w')) = packets_of k (errors (manager w))) /\
    released (log w') = released (log w) ++ [error].
Proof.
  split; [reflexivity|]. intros error key w'. unfold w', bot_on_error.
  destruct (add_error_schedule error NoCtx None w) as (_ & _ & Hrel & _).
  split; [|split; [|exact Hrel]].
  - rewrite add_error_errors, packets_of_record_packet. by rewrite decide_True.
  - intros k Hk. rewrite add_error_errors, packets_of_record_packet.
    by rewrite decide_False.
Qed.

(** ** The webserver cog *)

Lemma aio_outcome (c : webserver.AioCall) (s : webserver.Server) :
  (webserver.aio c s).2 = webserver.Done \/
  (webserver.aio c s).2 = webserver.AiohttpError.
Proof. unfold webserver.aio. destruct (webserver.aiohttp s) as [|[] ?]; auto. Qed.

(** X17. [cog_load] and [cog_unload] never raise: whatever aiohttp does,
    the [return] in their [finally] clauses discards the exception of
    [start] and of [close]. After a [cog_load] whose [runner.setup()]
    failed there is no site; after one whose [start()] of the site failed
    the site is kept in [_webserver] all the same. *)
Theorem cog_load_and_unload_never_raise (cls : webserver.CogClass) (s : webserver.Server) :
  (webserver.cog_load cls s).2 = webserver.Done /\
  (webserver.cog_unload cls s).2 = webserver.Done /\
  (forall rest, webserver.aiohttp s = false :: rest ->
     webserver._webserver (webserver.cog_load cls s).1 = webserver._webserver s /\
     webserver.calls (webserver.cog_load cls s).1 = webserver.calls s) /\
  (forall rest, webserver.aiohttp s = true :: false :: rest ->
     webserver._webserver (webserver.cog_load cls s).1 =
       Some (webserver.__runner_host__ cls, webserver.__runner_port__ cls) /\
     webserver.calls (webserver.cog_load cls s).1 =
       webserver.calls s ++ [webserver.RunnerSetup]).
Proof.
  split; [|split; [|split]].
  - unfold webserver.cog_load. by destruct (webserver.start _ _ _ s).
  - unfold webserver.cog_unload. by destruct (webserver.close _ s).
  - intros rest Hn. unfold webserver.cog_load, webserver.start, webserver.aio.
    cbn [webserver.aiohttp webserver.log_debug]. by rewrite Hn.
  - intros rest Hn. unfold webserver.cog_load, webserver.start, webserver.aio.
    cbn [webserver.aiohttp webserver.log_debug]. by rewrite Hn.
Qed.

Lemma cog_load_and_unload_never_raise_witness :
  (webserver.start "Stats" "localhost" (Some 8080) (webserver.new_server [false])).2
    = webserver.AiohttpError /\
  (webserver.cog_load
     {| webserver.cls_name := "Stats"; webserver.__runner_port__ := Some 8080;
        webserver.__runner_host__ := "localhost" |}
     (webserver.new_server [false])).2 = webserver.Done /\
  webserver._webserver
    (webserver.cog_load
       {| webserver.cls_name := "Stats"; webserver.__runner_port__ := Some 8080;
          webserver.__runner_host__ := "localhost" |}
       (webserver.new_server [false])).1 = None.
Proof.
  destruct (cog_load_and_unload_never_raise
              {| webserver.cls_name := "Stats"; webserver.__runner_port__ := Some 8080;
                 webserver.__runner_host__ := "localhost" |}
              (webserver.new_server [false])) as (Hload & _ & Hsetup & _).
  split; [reflexivity|]. split; [exact Hload|].
  destruct (Hsetup [] eq_refl) as [Hsite _]. exact Hsite.
Defined.

(** X18. [auto_start] is only read by [__init_subclass__], for the check of
    the port: a class is refused exactly when [auto_start] is on and no port
    is given, and [cog_load] of an accepted class starts the server with the
    host and port of the class whatever [auto_start] was. A class declared
    with [auto_start=False] and no port is thus started by [cog_load], with
    the port [MISSING]. *)
Theorem auto_start_does_not_prevent_the_start
    (name : string) (auto_start : bool) (host : string) (port : option Z)
    (s : webserver.Server) :
  ((exists message, webserver.__init_subclass__ name auto_start host port = inr message)
   <-> auto_start = true /\ port = None) /\
  forall cls,
    webserver.__init_subclass__ name auto_start host port = inl cls ->
    webserver.cog_load cls s = (( webserver.start name host port s).1, webserver.Done) /\
    (Forall (fun ok => ok = true) (webserver.aiohttp s) ->
     webserver.calls (webserver.cog_load cls s).1 =
       webserver.calls s ++ [webserver.RunnerSetup; webserver.SiteStart host port] /\
     webserver._webserver (webserver.cog_load cls s).1 = Some (host, port)).
Proof.
  split.
  - unfold webserver.__init_subclass__. destruct auto_start, port; split;
      try (intros [message Hm]; discriminate); try (intros [? ?]; discriminate);
      try done; intros _; eauto.
  - intros cls Hcls.
    assert (Hc : cls = {| webserver.cls_name := name; webserver.__runner_port__ := port;
                          webserver.__runner_host__ := host |}).
    { unfold webserver.__init_subclass__ in Hcls.
      destruct auto_start, port; by inversion Hcls. }
    subst cls. split.
    + unfold webserver.cog_load. cbn [webserver.cls_name webserver.__runner_host__
                                       webserver.__runner_port__].
      by destruct (webserver.start name host port s).
    + intros Hup. unfold webserver.cog_load, webserver.start, webserver.aio.
      cbn [webserver.cls_name webserver.__runner_host__ webserver.__runner_port__
           webserver.aiohttp webserver.log_debug].
      destruct (webserver.aiohttp s) as [|[] [|[] rest]] eqn:Hn; cbn;
        try (by rewrite <- app_assoc);
        exfalso; inversion Hup as [|? ? H1 H2]; subst; try discriminate;
        inversion H2; subst; discriminate.
Qed.

Lemma auto_start_does_not_prevent_the_start_witness :
  webserver.calls
    (webserver.cog_load
       {| webserver.cls_name := "Stats"; webserver.__runner_port__ := None;
          webserver.__runner_host__ := "localhost" |} (webserver.new_server [])).1
  = [webserver.RunnerSetup; webserver.SiteStart "localhost" None].
Proof.
  destruct (auto_start_does_not_prevent_the_start "Stats" false "localhost" None
              (webserver.new_server [])) as [_ Hload].
  destruct (Hload _ eq_refl) as [_ Hcalls].
  destruct Hcalls as [Hcalls _]; [constructor|]. exact Hcalls.
Defined.


